(** * deep-crawl: the pure helpers of [main.py], embedded and verified

    The crawler itself is an external collaborator; what the repository owns
    is a handful of string functions: [parse_sections], [filter_sections],
    [generate_output_filename], [parse_cookies], [parse_auth_header] and
    [format_results].  They are embedded below as executable Rocq functions
    and the properties stated in the specification are settled against them.

    Character model.  A Python [str] is a sequence of code points.  Here a
    string is a [String.string] whose characters are read as the code points
    U+0000..U+00FF; [str.lower], [str.strip] and the regular-expression class
    [\w] are given with their Python meaning on that range. *)

From Stdlib Require Import Ascii String NArith ZArith Lia.
From Stdlib Require Import Numbers.DecimalString.
From stdpp Require Import gmap strings list fin_maps.

(** ** Python string primitives *)

Module PyStr.

(** Code point of a character. *)
Definition ord (c : ascii) : N := N_of_ascii c.

Definition between (lo hi n : N) : bool := (lo <=? n)%N && (n <=? hi)%N.

(** [str.isspace] on one code point below 256. *)
Definition isspace (c : ascii) : bool :=
  let n := ord c in
  between 9 13 n || between 28 32 n || (n =? 133)%N || (n =? 160)%N.

(** [str.lower] on one code point below 256: A-Z and the Latin-1 capitals
    U+00C0..U+00DE (the multiplication sign U+00D7 apart) move up by 32. *)
Definition lower_char (c : ascii) : ascii :=
  let n := ord c in
  if between 65 90 n || (between 192 222 n && negb (n =? 215)%N)
  then ascii_of_N (n + 32) else c.

Fixpoint lower (s : string) : string :=
  match s with
  | EmptyString => EmptyString
  | String c r => String (lower_char c) (lower r)
  end.

(** The class [\w] of [re] for a [str] pattern: [isalnum] or underscore. *)
Definition isword (c : ascii) : bool :=
  let n := ord c in
  between 48 57 n || between 65 90 n || between 97 122 n || (n =? 95)%N
  || (n =? 170)%N || (n =? 178)%N || (n =? 179)%N || (n =? 181)%N
  || (n =? 185)%N || (n =? 186)%N || between 188 190 n
  || between 192 214 n || between 216 246 n || between 248 255 n.

(** Truthiness of a string: [not s] holds exactly for the empty string. *)
Definition truthy (s : string) : bool :=
  match s with EmptyString => false | String _ _ => true end.

(** [s.startswith(p)]. *)
Definition startswith (p s : string) : bool := String.prefix p s.

(** [sub in s]. *)
Fixpoint contains (sub s : string) : bool :=
  String.prefix sub s ||
  match s with
  | EmptyString => false
  | String _ r => contains sub r
  end.

(** [c in s] for a one-character needle. *)
Fixpoint contains_char (c : ascii) (s : string) : bool :=
  match s with
  | EmptyString => false
  | String d r => Ascii.eqb d c || contains_char c r
  end.

(** [s.lstrip(chars)] for a one-character set. *)
Fixpoint lstrip_char (c : ascii) (s : string) : string :=
  match s with
  | String d r => if Ascii.eqb d c then lstrip_char c r else s
  | EmptyString => EmptyString
  end.

Fixpoint lstrip (s : string) : string :=
  match s with
  | String d r => if isspace d then lstrip r else s
  | EmptyString => EmptyString
  end.

Fixpoint rstrip (s : string) : string :=
  match s with
  | EmptyString => EmptyString
  | String d r =>
      match rstrip r with
      | EmptyString => if isspace d then EmptyString else String d EmptyString
      | r' => String d r'
      end
  end.

(** [s.strip()]. *)
Definition strip (s : string) : string := rstrip (lstrip s).

(** [s.split(sep)] for a one-character separator (every call of the
    program passes one).  The result is never empty. *)
Fixpoint split (sep : ascii) (s : string) : list string :=
  match s with
  | EmptyString => [EmptyString]
  | String c r =>
      if Ascii.eqb c sep then EmptyString :: split sep r
      else match split sep r with
           | h :: t => String c h :: t
           | [] => [String c EmptyString]
           end
  end.

(** [s.split(sep, 1)]: at most one cut, at the first separator. *)
Fixpoint split1 (sep : ascii) (s : string) : list string :=
  match s with
  | EmptyString => [EmptyString]
  | String c r =>
      if Ascii.eqb c sep then [EmptyString; r]
      else match split1 sep r with
           | h :: t => String c h :: t
           | [] => [String c EmptyString]
           end
  end.

(** [sep.join(parts)]. *)
Fixpoint join (sep : string) (parts : list string) : string :=
  match parts with
  | [] => EmptyString
  | [x] => x
  | x :: rest => x +:+ sep +:+ join sep rest
  end.

(** [s.replace(old, new)] for a non-empty [old]: left to right, matches do
    not overlap.  [skip] counts the characters of a match still to pass. *)
Fixpoint replace_from (skip : nat) (old new s : string) : string :=
  match s with
  | EmptyString => EmptyString
  | String c r =>
      match skip with
      | S k => replace_from k old new r
      | O =>
          if String.prefix old s
          then new +:+ replace_from (String.length old - 1) old new r
          else String c (replace_from 0 old new r)
      end
  end.

Definition replace (old new s : string) : string := replace_from 0 old new s.

(** Keep the characters that satisfy [keep]: [re.sub] of the complement
    class by the empty string. *)
Fixpoint keep_chars (keep : ascii -> bool) (s : string) : string :=
  match s with
  | EmptyString => EmptyString
  | String c r =>
      if keep c then String c (keep_chars keep r) else keep_chars keep r
  end.

(** [str(n)] for an integer. *)
Definition str_of_int (n : Z) : string := NilZero.string_of_int (Z.to_int n).

End PyStr.

(** ** Results and exceptions *)

(** The exceptions the embedded functions can raise. *)
Inductive exn : Type :=
| KeyError (key : string)
| ValueError
| AttributeError (attr : string)
| OSError (errno : Z).

(** A Python call either returns a value or raises. *)
Inductive outcome (A : Type) : Type :=
| Returned (a : A)
| Raised (e : exn).
Arguments Returned {A} a.
Arguments Raised {A} e.

Global Instance outcome_ret : MRet outcome := fun A a => Returned a.
Global Instance outcome_bind : MBind outcome := fun A B k m =>
  match m with
  | Returned a => k a
  | Raised e => Raised e
  end.

(** A list comprehension whose element expression may raise: the first
    exception aborts the whole comprehension. *)
Fixpoint comprehension {A B} (f : A -> outcome B) (l : list A) : outcome (list B) :=
  match l with
  | [] => mret []
  | a :: rest =>
      b ← f a;
      bs ← comprehension f rest;
      mret (b :: bs)
  end.

(** The line feed, as a character and as a one-character string. *)
Definition LF : ascii := "010"%char.
Definition NL : string := String LF EmptyString.

(** ** urllib.parse.urlparse, as far as [netloc] goes

    [urlsplit] first drops the leading characters up to U+0020 and every tab,
    line feed and carriage return.  It cuts a leading [scheme:] when the text
    before the first colon is a letter followed by scheme characters, and
    then, when the rest starts with two slashes, takes as [netloc] what lies
    between them and the first of [/], [?] and [#].  A [netloc] with one kind
    of square bracket and not the other raises [ValueError].  A [netloc] with
    both kinds is checked further by the library (what may stand around the
    brackets, and the address between them); that check is not modelled, and
    the properties stated of [netloc] below are for URLs without brackets. *)

Module UrlLib.

Definition isasciialpha (c : ascii) : bool :=
  let n := PyStr.ord c in PyStr.between 65 90 n || PyStr.between 97 122 n.

Definition scheme_char (c : ascii) : bool :=
  let n := PyStr.ord c in
  isasciialpha c || PyStr.between 48 57 n
  || (n =? 43)%N || (n =? 45)%N || (n =? 46)%N.

Fixpoint all_chars (p : ascii -> bool) (s : string) : bool :=
  match s with
  | EmptyString => true
  | String c r => p c && all_chars p r
  end.

(** The URL after its scheme, if it has one. *)
Definition after_scheme (url : string) : string :=
  match PyStr.split1 ":" url, url with
  | [sch; rest], String c0 _ =>
      if PyStr.truthy sch && isasciialpha c0 && all_chars scheme_char sch
      then rest else url
  | _, _ => url
  end.

Fixpoint until_delim (s : string) : string :=
  match s with
  | EmptyString => EmptyString
  | String c r =>
      if Ascii.eqb c "/" || Ascii.eqb c "?" || Ascii.eqb c "#"
      then EmptyString else String c (until_delim r)
  end.

(** [url.lstrip(...)] for the characters U+0000..U+0020. *)
Fixpoint lstrip_c0 (s : string) : string :=
  match s with
  | String c r => if (PyStr.ord c <=? 32)%N then lstrip_c0 r else s
  | EmptyString => EmptyString
  end.

(** Tab, line feed and carriage return, removed wherever they stand. *)
Definition unsafe_char (c : ascii) : bool :=
  let n := PyStr.ord c in (n =? 9)%N || (n =? 10)%N || (n =? 13)%N.

Definition cleaned (url : string) : string :=
  PyStr.keep_chars (fun c => negb (unsafe_char c)) (lstrip_c0 url).

(** One kind of bracket without the other. *)
Definition unbalanced (n : string) : bool :=
  (PyStr.contains_char "[" n && negb (PyStr.contains_char "]" n))
  || (PyStr.contains_char "]" n && negb (PyStr.contains_char "[" n)).

Definition netloc (url : string) : outcome string :=
  match after_scheme (cleaned url) with
  | String "/" (String "/" r) =>
      let n := until_delim r in
      if unbalanced n then Raised ValueError else Returned n
  | _ => Returned EmptyString
  end.

End UrlLib.

(** ** The program *)

(** [generate_output_filename(url, format)]. *)
Definition extensions : gmap string string :=
  <["markdown" := "md"]> (<["json" := "json"]> (<["xml" := "xml"]> ∅)).

Definition generate_output_filename (url format : string) : outcome string :=
  netloc ← UrlLib.netloc url;
  let domain := PyStr.replace "." "-" (PyStr.replace "www." "" netloc) in
  let domain := PyStr.keep_chars (fun c => PyStr.isword c || Ascii.eqb c "-") domain in
  let domain := if PyStr.contains "docs" domain then domain else "docs-" +:+ domain in
  match extensions !! format with
  | Some ext => Returned (domain +:+ "." +:+ ext)
  | None => Raised (KeyError format)
  end.

(** [parse_sections(sections_str)]: [None] and the empty string give no
    keyword; otherwise the comma-separated pieces, trimmed and lowercased,
    the blank ones dropped. *)
Definition parse_sections (sections_str : option string) : list string :=
  match sections_str with
  | None => []
  | Some s =>
      if negb (PyStr.truthy s) then []
      else map (fun p => PyStr.lower (PyStr.strip p))
               (filter (fun p => Is_true (PyStr.truthy (PyStr.strip p)))
                       (PyStr.split "," s))
  end.

(** [any(section in header_text for section in keywords)]. *)
Definition any_in (keywords : list string) (header_text : string) : bool :=
  existsb (fun section => PyStr.contains section header_text) keywords.

(** Truthiness of a list. *)
Definition nonempty {A} (l : list A) : bool :=
  match l with [] => false | _ :: _ => true end.

(** [filter_sections]: the two variables the loop updates. *)
Record loop_state : Type := LoopState {
  filtered_lines : list string;
  include_current : bool }.

(** One iteration of [for line in lines]. *)
Definition loop_body (include_list exclude_list : list string)
    (st : loop_state) (line : string) : loop_state :=
  let include_current' :=
    if PyStr.startswith "#" line then
      let header_text := PyStr.lower (PyStr.strip (PyStr.lstrip_char "#" line)) in
      if nonempty include_list then any_in include_list header_text
      else if nonempty exclude_list then negb (any_in exclude_list header_text)
      else true
    else include_current st in
  {| filtered_lines :=
       if include_current' then filtered_lines st ++ [line]
       else filtered_lines st;
     include_current := include_current' |}.

Definition filter_sections (content : string)
    (include_sections exclude_sections : option string) : string :=
  if negb (PyStr.truthy content) then content
  else
    let lines := PyStr.split LF content in
    let include_list := parse_sections include_sections in
    let exclude_list := parse_sections exclude_sections in
    let final := fold_left (loop_body include_list exclude_list) lines
                   {| filtered_lines := []; include_current := true |} in
    PyStr.join NL (filtered_lines final).

(** What [print] has written, one entry per call, paired with how the call
    ended. *)
Definition run (A : Type) : Type := (list string * outcome A)%type.

(** Tuple unpacking [a, b = parts]. *)
Definition unpack2 (parts : list string) : outcome (string * string) :=
  match parts with
  | [a; b] => mret (a, b)
  | _ => Raised ValueError
  end.

(** A cookie dictionary: the four keys [parse_cookies] writes. *)
Record cookie : Type := Cookie {
  name : string;
  value : string;
  domain : string;
  path : string }.

Section Cookies.

(** What [json.load] yields is returned untouched, so its type is left
    open. *)
Variable json : Type.

(** The file system as [parse_cookies] sees it: [None] when
    [Path(p).exists()] is false, otherwise how [open] and [json.load] end. *)
Variable fs : string -> option (outcome json).

Inductive cookies_value : Type :=
| Loaded (j : json)
| Parsed (cookies : list cookie).

(** One iteration of [for cookie in cookies_str.split(";")]. *)
Definition cookie_step (cookies : outcome (list cookie)) (segment : string)
    : outcome (list cookie) :=
  cs ← cookies;
  if PyStr.contains_char "=" segment then
    nv ← unpack2 (PyStr.split1 "=" segment);
    mret (cs ++ [ {| name := PyStr.strip (fst nv);
                     value := PyStr.strip (snd nv);
                     domain := "";
                     path := "/" |} ])
  else mret cs.

Definition parse_cookies (cookies_str : option string) : run (option cookies_value) :=
  match cookies_str with
  | None => ([], mret None)
  | Some s =>
      if negb (PyStr.truthy s) then ([], mret None)
      else
        match fs s with
        | Some (Returned j) => ([], mret (Some (Loaded j)))
        | Some (Raised _) =>
            (["Warning: Could not parse cookie file " +:+ s], mret None)
        | None =>
            ([], cookies ← fold_left cookie_step (PyStr.split ";" s) (mret []);
                 mret (if nonempty cookies then Some (Parsed cookies) else None))
        end
  end.

End Cookies.

Arguments Loaded {json} j.
Arguments Parsed {json} cookies.

(** [parse_auth_header(auth_header)]. *)
Definition parse_auth_header (auth_header : option string)
    : run (option (gmap string string)) :=
  match auth_header with
  | None => ([], mret None)
  | Some s =>
      if negb (PyStr.truthy s) then ([], mret None)
      else if PyStr.contains_char ":" s then
        ([], kv ← unpack2 (PyStr.split1 ":" s);
             mret (Some {[ PyStr.strip (fst kv) := PyStr.strip (snd kv) ]}))
      else (["Warning: Invalid auth header format: " +:+ s], mret None)
  end.

(** The values the orchestrator stores in a metadata dictionary. *)
Inductive pyval : Type :=
| PStr (s : string)
| PInt (n : Z).

(** How an f-string renders a value. *)
Definition fmt (v : pyval) : string :=
  match v with
  | PStr s => s
  | PInt n => PyStr.str_of_int n
  end.

(** The attributes of a crawl result the program reads; [_crawl_metadata] is
    absent until the orchestrator attaches it. *)
Record CrawlResult : Type := {
  success : bool;
  markdown : string;
  _crawl_metadata : option (gmap string pyval) }.

(** [metadata.get(key, 'Unknown')], rendered. *)
Definition get_or_unknown (metadata : gmap string pyval) (key : string) : string :=
  fmt (default (PStr "Unknown") (metadata !! key)).

Definition format_result (include_metadata : bool) (result : CrawlResult)
    : outcome string :=
  let output := markdown result in
  if include_metadata then
    match _crawl_metadata result with
    | None => Raised (AttributeError "_crawl_metadata")
    | Some metadata =>
        let header := "# Documentation Crawl Report" +:+ NL +:+ NL in
        let header := header +:+ ("**Source:** " +:+ get_or_unknown metadata "url" +:+ NL) in
        let header := header +:+ ("**Crawled:** " +:+ get_or_unknown metadata "timestamp" +:+ NL) in
        let header := header +:+ ("**Pages:** " +:+ get_or_unknown metadata "page_count" +:+ NL) in
        let header := header +:+ ("**Strategy:** " +:+ get_or_unknown metadata "strategy" +:+ NL +:+ NL) in
        let header := header +:+ ("---" +:+ NL +:+ NL) in
        mret (header +:+ output)
    end
  else mret output.

Definition format_results (results : list CrawlResult) (include_metadata : bool)
    : outcome string :=
  texts ← comprehension (format_result include_metadata) results;
  mret (PyStr.join NL texts).

(** The orchestrator's treatment of one successful result: filter the
    markdown when a section option was given, then attach the metadata.
    [timestamp] is what [time.strftime] returned. *)
Definition collect (url : string) (sections exclude_sections : option string)
    (timestamp : string) (result : CrawlResult) : CrawlResult :=
  let given o := match o with Some s => PyStr.truthy s | None => false end in
  let content := markdown result in
  let content :=
    if given sections || given exclude_sections
    then filter_sections content sections exclude_sections else content in
  {| success := success result;
     markdown := content;
     _crawl_metadata :=
       Some (<["url" := PStr url]>
            (<["timestamp" := PStr timestamp]>
            (<["page_count" := PInt 1]>
            (<["strategy" := PStr "single-page"]> ∅)))) |}.

(** *** The loop of [filter_sections] in recursive form

    [header_verdict] is the value the loop assigns to [include_current] at a
    header line; [kept b lines] is what the loop appends when it enters
    [lines] with [include_current = b]. *)

Definition header_verdict (include_list exclude_list : list string)
    (line : string) : bool :=
  let header_text := PyStr.lower (PyStr.strip (PyStr.lstrip_char "#" line)) in
  if nonempty include_list then any_in include_list header_text
  else if nonempty exclude_list then negb (any_in exclude_list header_text)
  else true.

Fixpoint kept (include_list exclude_list : list string) (b : bool)
    (lines : list string) : list string :=
  match lines with
  | [] => []
  | line :: rest =>
      let b' := if PyStr.startswith "#" line
                then header_verdict include_list exclude_list line else b in
      if b' then line :: kept include_list exclude_list b' rest
      else kept include_list exclude_list b' rest
  end.

(** ** The specification's vocabulary

    The definitions below follow the words of the specification, not the
    code: a document is a list of lines, a header is a line that starts with
    [#], a section is a header with the lines up to the next header. *)

(** A header line. *)
Definition is_header (line : string) : bool := PyStr.startswith "#" line.

(** The text of a header: leading [#] removed, trimmed, lowercased. *)
Definition header_text (line : string) : string :=
  PyStr.lower (PyStr.strip (PyStr.lstrip_char "#" line)).

(** The lines of a document up to its first header. *)
Fixpoint preamble (lines : list string) : list string :=
  match lines with
  | [] => []
  | l :: rest => if is_header l then [] else l :: preamble rest
  end.

(** The sections of a document, in order: each header with its body, the
    lines that follow it up to the next header. *)
Fixpoint sections (lines : list string) : list (string * list string) :=
  match lines with
  | [] => []
  | l :: rest =>
      if is_header l then (l, preamble rest) :: sections rest
      else sections rest
  end.

(** The lines of the sections whose header satisfies [keep]. *)
Definition section_lines (keep : string -> bool) (lines : list string)
    : list string :=
  concat (map (fun sec => fst sec :: snd sec)
              (filter (fun sec => Is_true (keep (fst sec))) (sections lines))).

(** The header text contains at least one of the keywords. *)
Definition mentions (keywords : list string) (header : string) : bool :=
  existsb (fun k => PyStr.contains k (header_text header)) keywords.

(** The document has a header line. *)
Definition has_header (content : string) : Prop :=
  Exists (fun l => is_header l = true) (PyStr.split LF content).

(** No line of the document starts with [#]. *)
Definition no_header (content : string) : Prop :=
  Forall (fun l => is_header l = false) (PyStr.split LF content).

(** The lines of a document; the empty document has none. *)
Definition doc_lines (content : string) : list string :=
  if PyStr.truthy content then PyStr.split LF content else [].

(** Cut a string at the first occurrence of a character. *)
Fixpoint cut (c : ascii) (s : string) : option (string * string) :=
  match s with
  | EmptyString => None
  | String d r =>
      if Ascii.eqb d c then Some (EmptyString, r)
      else match cut c r with
           | Some (pre, post) => Some (String d pre, post)
           | None => None
           end
  end.

(** The cookie a segment of an inline cookie string stands for: none when it
    has no [=], otherwise the trimmed text on both sides of the first [=]. *)
Definition segment_cookie (segment : string) : option cookie :=
  match cut "=" segment with
  | None => None
  | Some (n, v) =>
      Some {| name := PyStr.strip n; value := PyStr.strip v;
              domain := ""; path := "/" |}
  end.

(** The metadata block of a result, line by line. *)
Definition metadata_block (url timestamp pages strategy : string) : string :=
  PyStr.join NL
    [ "# Documentation Crawl Report"; "";
      "**Source:** " +:+ url;
      "**Crawled:** " +:+ timestamp;
      "**Pages:** " +:+ pages;
      "**Strategy:** " +:+ strategy;
      "";
      "---";
      ""; "" ].

(** The records an inline cookie string stands for, or absence when there
    is none. *)
Definition inline_cookies {json} (s : string) : option (cookies_value json) :=
  match omap segment_cookie (PyStr.split ";" s) with
  | [] => None
  | cs => Some (Parsed cs)
  end.

(** The result carries a metadata record with these four entries. *)
Definition has_metadata (result : CrawlResult)
    (url timestamp pages strategy : pyval) : Prop :=
  ∃ metadata,
    _crawl_metadata result = Some metadata ∧
    metadata !! "url" = Some url ∧
    metadata !! "timestamp" = Some timestamp ∧
    metadata !! "page_count" = Some pages ∧
    metadata !! "strategy" = Some strategy.

(** ** The orchestrator: the parts of [main] around the helpers *)

(** Truthiness of an optional command-line string: [None] and the empty
    string are false. *)
Definition given (o : option string) : bool :=
  match o with
  | Some s => PyStr.truthy s
  | None => false
  end.

(** Truthiness of a dictionary. *)
Definition nonempty_dict (d : gmap string string) : bool :=
  bool_decide (d ≠ ∅).

(** The [headers] entry of the browser keyword arguments: [headers = {}],
    updated with the parsed auth header when the option is given and the
    parser returns a non-empty mapping, and passed as [None] when empty. *)
Definition browser_headers (auth_header : option string)
    : run (option (gmap string string)) :=
  let headers : gmap string string := ∅ in
  if given auth_header then
    let '(printed, parsed) := parse_auth_header auth_header in
    (printed,
     auth_headers ← parsed;
     let headers :=
       match auth_headers with
       | Some d => if nonempty_dict d then d ∪ headers else headers
       | None => headers
       end in
     mret (if nonempty_dict headers then Some headers else None))
  else ([], mret (if nonempty_dict headers then Some headers else None)).

(** What the orchestrator writes to the console.  The lines for a failed
    page, an interrupt and an unexpected error start with a fixed marker of
    characters above U+00FF; they are kept as events that carry the variable
    part of the line. *)
Inductive event : Type :=
| Print (text : string)
| CrawlFailed (message : string)
| Interrupted
| UnexpectedError (message : string)
| Traceback.

(** A page as the crawler hands it over: the result, its [error_message]
    attribute when it has one, and what [time.strftime] returns when the
    loop reaches it. *)
Record page : Type := {
  result : CrawlResult;
  error_message : option string;
  crawled_at : string }.

(** The state of [for result in results]. *)
Record crawl_state : Type := {
  collected_results : list CrawlResult;
  console : list event }.

(** One iteration: a successful result is filtered, given its metadata and
    appended; a failed one is reported. *)
Definition crawl_step (url : string) (sections exclude_sections : option string)
    (st : crawl_state) (p : page) : crawl_state :=
  if success (result p) then
    {| collected_results :=
         collected_results st
         ++ [collect url sections exclude_sections (crawled_at p) (result p)];
       console := console st |}
  else
    {| collected_results := collected_results st;
       console :=
         console st
         ++ [CrawlFailed (default "Unknown error" (error_message p))] |}.

Definition crawl_loop (url : string) (sections exclude_sections : option string)
    (pages : list page) : crawl_state :=
  fold_left (crawl_step url sections exclude_sections) pages
    {| collected_results := []; console := [] |}.

(** [args.output or generate_output_filename(args.url, "markdown")]. *)
Definition output_file (output : option string) (url : string) : outcome string :=
  match output with
  | Some o => if PyStr.truthy o then mret o
              else generate_output_filename url "markdown"
  | None => generate_output_filename url "markdown"
  end.

(** The call of [parse_cookies] on a file system whose existence test can
    itself fail: [Path(cookies_str).exists()] stands outside the [try], so
    what it raises leaves the function.  [probe p] is how the test on [p]
    ends and, when it returns, the answer [parse_cookies] reads: [None] for
    a missing path, otherwise how [open] and [json.load] end. *)
Definition parse_cookies_call {json : Type}
    (probe : string -> outcome (option (outcome json)))
    (cookies_str : option string) : run (option (cookies_value json)) :=
  match cookies_str with
  | Some s =>
      if PyStr.truthy s then
        match probe s with
        | Raised e => ([], Raised e)
        | Returned answer => parse_cookies json (fun _ => answer) cookies_str
        end
      else parse_cookies json (fun _ => None) cookies_str
  | None => parse_cookies json (fun _ => None) cookies_str
  end.

(** How [main] ends once the crawler has handed over its pages: it calls
    [sys.exit(1)], an exception leaves it, or the file is written. *)
Inductive written : Type :=
| Exit1
| Escaped (e : exn)
| Saved (path document : string).

(** [main] from the result loop to the file write, console output left
    aside.  With [--quiet] off the statistics line reads [end_time], which
    only the loop body assigns: when the crawler returned no page the read
    fails inside the [try] and the handler exits.  The output path and the
    formatted document are computed outside any [try]; so is the token
    count, [count_tokens], which belongs to an external library.  A failure
    of the write, [write], is caught and exits. *)
Definition main_after_crawl (quiet : bool) (output : option string)
    (url : string) (sections exclude_sections : option string)
    (include_metadata : bool)
    (count_tokens : string -> outcome Z)
    (write : string -> string -> outcome unit)
    (pages : list page) : written :=
  let st := crawl_loop url sections exclude_sections pages in
  if negb quiet && negb (nonempty pages) then Exit1
  else
    match output_file output url with
    | Raised e => Escaped e
    | Returned path =>
        match format_results (collected_results st) include_metadata with
        | Raised e => Escaped e
        | Returned document =>
            match count_tokens document with
            | Raised e => Escaped e
            | Returned _ =>
                match write path document with
                | Raised _ => Exit1
                | Returned _ => Saved path document
                end
            end
        end
    end.

(** *** Vocabulary for the properties of the orchestrator and the helpers *)

(** A character a generated file name may hold before its extension. *)
Definition name_char (c : ascii) : bool := PyStr.isword c || Ascii.eqb c "-".

(** The rendered metadata entry for a key: its value, or [Unknown]. *)
Definition entry (metadata : gmap string pyval) (key : string) : string :=
  match metadata !! key with
  | Some v => fmt v
  | None => "Unknown"
  end.

(** The text [format_results] gives one result that carries metadata. *)
Definition result_text (r : CrawlResult) : string :=
  match _crawl_metadata r with
  | Some m =>
      metadata_block (entry m "url") (entry m "timestamp")
                     (entry m "page_count") (entry m "strategy")
      +:+ markdown r
  | None => markdown r
  end.

(** The length of a list of lines once joined by line feeds. *)
Fixpoint joined_length (lines : list string) : nat :=
  match lines with
  | [] => 0
  | [x] => String.length x
  | x :: rest => String.length x + 1 + joined_length rest
  end.

(** The pages the crawler reports as successful, and the others. *)
Definition succeeded (pages : list page) : list page :=
  filter (fun p => Is_true (success (result p))) pages.

Definition failed (pages : list page) : list page :=
  filter (fun p => ¬ Is_true (success (result p))) pages.

(** The text a successful page has in the written document: its markdown,
    filtered when a section option is given, after its metadata block when
    metadata is enabled. *)
Definition page_text (url : string) (sections exclude_sections : option string)
    (include_metadata : bool) (p : page) : string :=
  let body :=
    if given sections || given exclude_sections
    then filter_sections (markdown (result p)) sections exclude_sections
    else markdown (result p) in
  if include_metadata
  then metadata_block url (crawled_at p) "1" "single-page" +:+ body
  else body.

(** Trimming, described without [strip]: [t] is [s] without its leading
    and trailing whitespace when [s] is [t] between two runs of whitespace
    and [t] neither starts nor ends with whitespace. *)
Definition first_char (s : string) : option ascii :=
  match s with
  | EmptyString => None
  | String c _ => Some c
  end.

Fixpoint last_char (s : string) : option ascii :=
  match s with
  | EmptyString => None
  | String c r =>
      match r with
      | EmptyString => Some c
      | String _ _ => last_char r
      end
  end.

Definition blank (s : string) : bool := UrlLib.all_chars PyStr.isspace s.

Definition no_space (o : option ascii) : bool :=
  match o with
  | Some c => negb (PyStr.isspace c)
  | None => true
  end.

Definition tight (t : string) : bool :=
  no_space (first_char t) && no_space (last_char t).

Definition trim_of (s t : string) : Prop :=
  ∃ l r, s = l +:+ t +:+ r ∧ blank l = true ∧ blank r = true ∧ tight t = true.

(** A URL without square brackets. *)
Definition no_brackets (url : string) : Prop :=
  PyStr.contains_char "[" url = false ∧ PyStr.contains_char "]" url = false.

(** ** Checks of the embedding on concrete inputs *)

Example split_ex : PyStr.split "," "a,,b," = ["a"; ""; "b"; ""].
Proof. reflexivity. Qed.

Example replace_ex : PyStr.replace "www." "" "www.a.www.b" = "a.b".
Proof. reflexivity. Qed.

Example strip_ex : PyStr.strip "  a b  " = "a b".
Proof. reflexivity. Qed.

Example lower_ex : PyStr.lower "API Ref" = "api ref".
Proof. reflexivity. Qed.

Example generate_ex :
  generate_output_filename "https://www.example.com/a/b?x#y" "json"
  = Returned "docs-example-com.json".
Proof. vm_compute. reflexivity. Qed.

Example filter_ex :
  filter_sections ("intro" +:+ NL +:+ "# API" +:+ NL +:+ "x" +:+ NL +:+ "## Blog" +:+ NL +:+ "y")
    (Some "api, guides") None
  = "intro" +:+ NL +:+ "# API" +:+ NL +:+ "x".
Proof. vm_compute. reflexivity. Qed.

Example parse_cookies_ex :
  parse_cookies unit (fun _ => None) (Some "a=1; b=2")
  = ([], Returned (Some (Parsed [ Cookie "a" "1" "" "/"; Cookie "b" "2" "" "/" ]))).
Proof. reflexivity. Qed.

Example parse_cookies_file_ex :
  parse_cookies unit (fun p => if String.eqb p "jar.json" then Some (Raised ValueError) else None)
    (Some "jar.json")
  = (["Warning: Could not parse cookie file jar.json"], Returned None).
Proof. reflexivity. Qed.

Example filter_empty_output_ex :
  filter_sections "# Blog" (Some "api") None = "".
Proof. vm_compute. reflexivity. Qed.

Example format_results_ex :
  format_results
    [ {| success := true; markdown := "a"; _crawl_metadata := None |};
      {| success := true; markdown := "b"; _crawl_metadata := None |} ] true
  = Raised (AttributeError "_crawl_metadata").
Proof. reflexivity. Qed.

Example parse_auth_ex :
  parse_auth_header (Some "Authorization: Bearer xyz")
  = ([], Returned (Some {[ "Authorization" := "Bearer xyz" ]})).
Proof. reflexivity. Qed.

(** ** Strings: append, split and join *)

Section StringFacts.

Implicit Types (s t : string) (c sep : ascii) (l : list string).

Lemma append_empty_l s : "" +:+ s = s.
Proof. reflexivity. Qed.

Lemma append_String c s t : String c s +:+ t = String c (s +:+ t).
Proof. reflexivity. Qed.

Lemma append_assoc s t u : (s +:+ t) +:+ u = s +:+ (t +:+ u).
Proof.
  induction s as [|c s IH]; [done|]. by rewrite !append_String, IH.
Qed.

Lemma truthy_false s : PyStr.truthy s = false ↔ s = "".
Proof. destruct s; split; done. Qed.

Lemma truthy_true s : PyStr.truthy s = true ↔ s ≠ "".
Proof. destruct s; split; done. Qed.

Lemma split_not_nil sep s : PyStr.split sep s ≠ [].
Proof.
  destruct s as [|c r]; simpl; [done|].
  destruct (Ascii.eqb c sep); [done|]. by destruct (PyStr.split sep r).
Qed.

Lemma join_two (j : string) x y l :
  PyStr.join j (x :: y :: l) = x +:+ j +:+ PyStr.join j (y :: l).
Proof. reflexivity. Qed.

Lemma join_String c x (j : string) l :
  PyStr.join j (String c x :: l) = String c (PyStr.join j (x :: l)).
Proof. destruct l; reflexivity. Qed.

(** [sep.join(s.split(sep)) == s]. *)
Lemma join_split c s : PyStr.join (String c "") (PyStr.split c s) = s.
Proof.
  induction s as [|d r IH]; simpl; [done|].
  destruct (Ascii.eqb_spec d c) as [->|Hne].
  - pose proof (split_not_nil c r) as Hnil.
    destruct (PyStr.split c r) as [|h t] eqn:E; [done|].
    rewrite join_two, append_empty_l, append_String, append_empty_l.
    by rewrite IH.
  - pose proof (split_not_nil c r) as Hnil.
    destruct (PyStr.split c r) as [|h t] eqn:E; [done|].
    by rewrite join_String, IH.
Qed.

(** The pieces of a split do not contain the separator. *)
Lemma split_pieces c s :
  Forall (fun p => PyStr.contains_char c p = false) (PyStr.split c s).
Proof.
  induction s as [|d r IH]; simpl.
  - by constructor.
  - destruct (Ascii.eqb d c) eqn:Hd.
    + by constructor.
    + destruct (PyStr.split c r) as [|h t]; constructor; simpl.
      * by rewrite Hd.
      * constructor.
      * rewrite Hd. by inversion IH.
      * by inversion IH.
Qed.

Lemma split_app c x s :
  PyStr.contains_char c x = false →
  PyStr.split c (x +:+ String c s) = x :: PyStr.split c s.
Proof.
  induction x as [|d x IH]; simpl; intros Hx.
  - rewrite ?append_empty_l; simpl. by rewrite Ascii.eqb_refl.
  - apply orb_false_iff in Hx as [Hd Hx].
    rewrite ?append_String; simpl. rewrite Hd, (IH Hx). done.
Qed.

Lemma split_whole c x :
  PyStr.contains_char c x = false → PyStr.split c x = [x].
Proof.
  induction x as [|d x IH]; simpl; intros Hx; [done|].
  apply orb_false_iff in Hx as [Hd Hx]. by rewrite Hd, (IH Hx).
Qed.

(** [sep.join(l).split(sep) == l] for a non-empty list of pieces without
    separator. *)
Lemma split_join c l :
  l ≠ [] →
  Forall (fun p => PyStr.contains_char c p = false) l →
  PyStr.split c (PyStr.join (String c "") l) = l.
Proof.
  induction l as [|x [|y l] IH]; intros Hne Hall; [done| |].
  - simpl. apply split_whole. by inversion Hall.
  - rewrite join_two. inversion Hall as [|? ? Hx Hrest]; subst.
    rewrite append_String, append_empty_l.
    rewrite (split_app _ _ _ Hx). f_equal. by apply IH.
Qed.

End StringFacts.

(** ** The section filter: loop, recursive form, sections *)

Section FilterFacts.

Variables include_list exclude_list : list string.

Abbreviation body := (loop_body include_list exclude_list).
Abbreviation keptl := (kept include_list exclude_list).
Abbreviation verdict := (header_verdict include_list exclude_list).

(** The loop appends exactly [kept] to what it had. *)
Lemma loop_kept lines st :
  filtered_lines (fold_left body lines st)
  = filtered_lines st ++ keptl (include_current st) lines.
Proof.
  revert st. induction lines as [|line rest IH]; intros st; simpl.
  - by rewrite app_nil_r.
  - rewrite IH. unfold loop_body; simpl. fold (verdict line).
    destruct (PyStr.startswith "#" line); simpl.
    + destruct (verdict line); simpl; [|done].
      by rewrite <- app_assoc.
    + destruct (include_current st); simpl; [|done].
      by rewrite <- app_assoc.
Qed.

(** What is kept is the preamble, when the loop starts in the including
    state, and then the sections whose header gets a positive verdict. *)
Lemma kept_sections b lines :
  keptl b lines
  = (if b then preamble lines else []) ++ section_lines verdict lines.
Proof.
  revert b. induction lines as [|line rest IH]; intros b.
  - by destruct b.
  - unfold section_lines in *. simpl. unfold is_header.
    destruct (PyStr.startswith "#" line) eqn:Hh.
    + destruct (verdict line) eqn:Hv.
      * rewrite filter_cons_True by (simpl; by rewrite Hv).
        rewrite IH. simpl. by destruct b.
      * rewrite filter_cons_False by (simpl; rewrite Hv; intros []).
        rewrite IH. simpl. by destruct b.
    + destruct b; rewrite IH; done.
Qed.

(** Filtering what was kept keeps all of it. *)
Lemma kept_kept b lines : keptl true (keptl b lines) = keptl b lines.
Proof.
  revert b. induction lines as [|line rest IH]; intros b; simpl; [done|].
  destruct (PyStr.startswith "#" line) eqn:Hh.
  - destruct (verdict line) eqn:Hv; [|apply IH].
    simpl. rewrite Hh, Hv. f_equal. apply IH.
  - destruct b; [|apply IH].
    simpl. rewrite Hh. f_equal. apply IH.
Qed.

(** What is kept is a subsequence of the lines. *)
Lemma kept_sublist b lines : keptl b lines `sublist_of` lines.
Proof.
  revert b. induction lines as [|line rest IH]; intros b; simpl; [done|].
  destruct (if PyStr.startswith "#" line then verdict line else b).
  - by apply sublist_skip.
  - by apply sublist_cons.
Qed.

(** Without a header everything is kept. *)
Lemma kept_no_header lines :
  Forall (fun l => is_header l = false) lines → keptl true lines = lines.
Proof.
  induction 1 as [|line rest Hl _ IH]; simpl; [done|].
  unfold is_header in Hl. rewrite Hl. by rewrite IH.
Qed.

End FilterFacts.

(** [filter_sections] through [kept]. *)
Lemma filter_sections_kept content inc exc :
  filter_sections content inc exc
  = if PyStr.truthy content
    then PyStr.join NL (kept (parse_sections inc) (parse_sections exc) true
                             (PyStr.split LF content))
    else content.
Proof.
  unfold filter_sections. destruct (PyStr.truthy content); simpl; [|done].
  by rewrite loop_kept.
Qed.

Lemma Forall_sublist {A} (P : A -> Prop) (k l : list A) :
  k `sublist_of` l → Forall P l → Forall P k.
Proof.
  induction 1 as [|x k l _ IH|x k l _ IH]; intros Hl; [done| |].
  - inversion Hl; subst. constructor; auto.
  - inversion Hl; subst. auto.
Qed.

Lemma section_lines_ext (f g : string -> bool) lines :
  (∀ l, f l = g l) → section_lines f lines = section_lines g lines.
Proof.
  intros Hfg. unfold section_lines. do 2 f_equal.
  apply list_filter_iff. intros sec. by rewrite Hfg.
Qed.

Lemma verdict_include include_list exclude_list line :
  include_list ≠ [] →
  header_verdict include_list exclude_list line = mentions include_list line.
Proof. intros Hne. unfold header_verdict. by destruct include_list. Qed.

Lemma verdict_exclude exclude_list line :
  exclude_list ≠ [] →
  header_verdict [] exclude_list line = negb (mentions exclude_list line).
Proof. intros Hne. unfold header_verdict. by destruct exclude_list. Qed.

(** ** The section filter: the properties of the specification *)

(** C1 as stated fails: with an include list, the document <<intro / # API /
    body>> keeps its first line [intro], which belongs to no section. *)
Lemma include_only_sections_fails :
  let content := "intro" +:+ NL +:+ "# API" +:+ NL +:+ "body" in
  let inc := Some "api" in
  has_header content ∧ parse_sections inc ≠ [] ∧
  filter_sections content inc None
  ≠ PyStr.join NL
      (section_lines (mentions (parse_sections inc)) (PyStr.split LF content)).
Proof.
  split; [|split].
  - unfold has_header. vm_compute. apply Exists_cons_tl, Exists_cons_hd. reflexivity.
  - vm_compute. discriminate.
  - vm_compute. discriminate.
Qed.

(** C1 (amended): for every document with at least one header line and every
    non-empty include keyword list (and any exclude list), [filter_sections]
    returns the lines that precede the first header, followed by exactly the
    header lines whose lowercased stripped text contains an include keyword,
    each with its body lines up to the next header, and nothing else. *)
Theorem filter_sections_include content inc exc :
  has_header content →
  parse_sections inc ≠ [] →
  filter_sections content inc exc
  = PyStr.join NL
      (preamble (PyStr.split LF content)
       ++ section_lines (mentions (parse_sections inc)) (PyStr.split LF content)).
Proof.
  intros _ Hinc. rewrite filter_sections_kept.
  destruct content as [|c r]; [reflexivity|].
  cbn [PyStr.truthy]. rewrite kept_sections. do 2 f_equal.
  apply section_lines_ext. intros l. by apply verdict_include.
Qed.

Lemma filter_sections_include_witness :
  let content := "intro" +:+ NL +:+ "# API" +:+ NL +:+ "body" +:+ NL +:+ "# Blog" +:+ NL +:+ "post" in
  has_header content ∧ parse_sections (Some "api") ≠ [] ∧
  filter_sections content (Some "api") (Some "api")
  = PyStr.join NL
      (preamble (PyStr.split LF content)
       ++ section_lines (mentions (parse_sections (Some "api")))
                        (PyStr.split LF content)).
Proof.
  intros content.
  assert (H1 : has_header content).
  { unfold has_header. vm_compute.
    apply Exists_cons_tl, Exists_cons_hd. reflexivity. }
  assert (H2 : parse_sections (Some "api") ≠ []).
  { vm_compute. discriminate. }
  split; [exact H1|split; [exact H2|]].
  exact (filter_sections_include content (Some "api") (Some "api") H1 H2).
Defined.

(** C2 as stated fails: with only an exclude list, the document <<intro /
    # Blog / x>> still yields its first line [intro], which is not part of
    any section. *)
Lemma exclude_only_sections_fails :
  let content := "intro" +:+ NL +:+ "# Blog" +:+ NL +:+ "x" in
  let exc := Some "blog" in
  parse_sections None = [] ∧ parse_sections exc ≠ [] ∧
  filter_sections content None exc
  ≠ PyStr.join NL
      (section_lines (fun h => negb (mentions (parse_sections exc) h))
                     (PyStr.split LF content)).
Proof.
  split; [|split].
  - reflexivity.
  - vm_compute. discriminate.
  - vm_compute. discriminate.
Qed.

(** C2 (amended): for every document and every non-empty exclude keyword
    list, when the include list is empty, [filter_sections] returns the lines
    that precede the first header, followed by exactly the sections whose
    lowercased header text contains none of the exclude keywords, and nothing
    else. *)
Theorem filter_sections_exclude content inc exc :
  parse_sections inc = [] →
  parse_sections exc ≠ [] →
  filter_sections content inc exc
  = PyStr.join NL
      (preamble (PyStr.split LF content)
       ++ section_lines (fun h => negb (mentions (parse_sections exc) h))
                        (PyStr.split LF content)).
Proof.
  intros Hinc Hexc. rewrite filter_sections_kept.
  destruct content as [|c r]; [reflexivity|].
  cbn [PyStr.truthy]. rewrite kept_sections, Hinc. do 2 f_equal.
  apply section_lines_ext. intros l. by apply verdict_exclude.
Qed.

Lemma filter_sections_exclude_witness :
  let content := "intro" +:+ NL +:+ "# Blog" +:+ NL +:+ "x" +:+ NL +:+ "# API" +:+ NL +:+ "y" in
  parse_sections (Some "") = [] ∧ parse_sections (Some "blog, news") ≠ [] ∧
  filter_sections content (Some "") (Some "blog, news")
  = PyStr.join NL
      (preamble (PyStr.split LF content)
       ++ section_lines
            (fun h => negb (mentions (parse_sections (Some "blog, news")) h))
            (PyStr.split LF content)).
Proof.
  intros content.
  assert (H1 : parse_sections (Some "") = []) by reflexivity.
  assert (H2 : parse_sections (Some "blog, news") ≠ []).
  { vm_compute. discriminate. }
  split; [exact H1|split; [exact H2|]].
  exact (filter_sections_exclude content (Some "") (Some "blog, news") H1 H2).
Defined.

(** C3: a document in which no line starts with [#] passes through unchanged,
    whatever the include and exclude lists; in particular the empty document
    gives the empty output. *)
Theorem filter_sections_no_header content inc exc :
  no_header content →
  filter_sections content inc exc = content ∧ filter_sections "" inc exc = "".
Proof.
  intros Hno. split; [|reflexivity].
  rewrite filter_sections_kept. destruct (PyStr.truthy content); [|done].
  rewrite kept_no_header by exact Hno. apply join_split.
Qed.

Lemma filter_sections_no_header_witness :
  let content := "plain text" +:+ NL +:+ NL +:+ " # not a header" in
  no_header content ∧
  (filter_sections content (Some "api") (Some "blog") = content ∧
   filter_sections "" (Some "api") (Some "blog") = "").
Proof.
  intros content.
  assert (H1 : no_header content).
  { unfold no_header. vm_compute. repeat constructor. }
  split; [exact H1|].
  exact (filter_sections_no_header content (Some "api") (Some "blog") H1).
Defined.

(** C4: [filter_sections] is idempotent for fixed include and exclude
    strings. *)
Theorem filter_sections_idempotent content inc exc :
  filter_sections (filter_sections content inc exc) inc exc
  = filter_sections content inc exc.
Proof.
  rewrite (filter_sections_kept content).
  destruct (PyStr.truthy content) eqn:Hc.
  - set (ks := kept _ _ true (PyStr.split LF content)).
    rewrite filter_sections_kept.
    destruct (PyStr.truthy (PyStr.join NL ks)) eqn:Hj; [|done].
    assert (Hks : ks ≠ []).
    { intros E. rewrite E in Hj. discriminate. }
    rewrite split_join; [|done|].
    + unfold ks. by rewrite kept_kept.
    + eapply Forall_sublist; [apply kept_sublist|]. apply split_pieces.
  - apply truthy_false in Hc as ->. reflexivity.
Qed.

(** C10: the lines of the output of [filter_sections] form a subsequence of
    the lines of the input: the output is the join of a subsequence of the
    input lines, and so its own lines (an empty output has none) are input
    lines in their original order, none repeated and none added. *)
Theorem filter_sections_subsequence content inc exc :
  (∃ out_lines,
      filter_sections content inc exc = PyStr.join NL out_lines ∧
      out_lines `sublist_of` PyStr.split LF content) ∧
  doc_lines (filter_sections content inc exc) `sublist_of` PyStr.split LF content.
Proof.
  rewrite filter_sections_kept.
  destruct (PyStr.truthy content) eqn:Hc.
  - set (ks := kept _ _ true (PyStr.split LF content)).
    assert (Hsub : ks `sublist_of` PyStr.split LF content) by apply kept_sublist.
    split; [by exists ks|].
    unfold doc_lines. destruct (PyStr.truthy (PyStr.join NL ks)) eqn:Hj.
    + rewrite split_join; [done| |].
      * intros E. rewrite E in Hj. discriminate.
      * eapply Forall_sublist; [exact Hsub|]. apply split_pieces.
    + apply sublist_nil_l.
  - apply truthy_false in Hc as ->. split.
    + exists [""]. split; [reflexivity|]. simpl. done.
    + apply sublist_nil_l.
Qed.

(** ** Substrings and cuts *)

Lemma prefix_spec p s : String.prefix p s = true ↔ ∃ post, s = p +:+ post.
Proof.
  revert s. induction p as [|c p IH]; intros [|d s]; simpl.
  - split; [by exists ""|done].
  - split; [by exists (String d s)|done].
  - split; [done|intros [post H]; discriminate H].
  - destruct (ascii_dec c d) as [->|Hne].
    + rewrite IH. split; intros [post H]; exists post.
      * by rewrite append_String, H.
      * rewrite append_String in H. by injection H.
    + split; [done|]. intros [post H]. rewrite append_String in H.
      injection H as H1 _. congruence.
Qed.

(** [sub in s] holds exactly when [s] is [pre + sub + post]. *)
Lemma contains_spec sub s :
  PyStr.contains sub s = true ↔ ∃ pre post, s = pre +:+ sub +:+ post.
Proof.
  induction s as [|d s IH].
  - cbn [PyStr.contains]. rewrite orb_false_r, prefix_spec. split.
    + intros [post H]. by exists "", post.
    + intros [[|c pre] [post H]]; [by exists post|discriminate H].
  - cbn [PyStr.contains]. rewrite orb_true_iff, prefix_spec, IH. split.
    + intros [[post H]|(pre & post & H)].
      * by exists "", post.
      * exists (String d pre), post. by rewrite append_String, H.
    + intros ([|c pre] & post & H).
      * left. by exists post.
      * right. rewrite append_String in H. injection H as _ H.
        by exists pre, post.
Qed.

(** [cut] finds the first occurrence. *)
Lemma cut_Some c s pre post :
  cut c s = Some (pre, post) ↔
  s = pre +:+ String c post ∧ PyStr.contains_char c pre = false.
Proof.
  revert pre post. induction s as [|d s IH]; intros pre post; simpl.
  - split; [done|]. intros [H _]. destruct pre; discriminate H.
  - destruct (Ascii.eqb_spec d c) as [->|Hne].
    + split.
      * intros [= <- <-]. done.
      * intros [H Hpre]. destruct pre as [|e pre].
        -- rewrite append_empty_l in H. by injection H as ->.
        -- rewrite append_String in H. injection H as <- _.
           simpl in Hpre. by rewrite Ascii.eqb_refl in Hpre.
    + destruct (cut c s) as [[pre' post']|].
      * split.
        -- intros [= <- <-].
           destruct (proj1 (IH pre' post') eq_refl) as [-> Hpre].
           split; [done|]. simpl. apply orb_false_iff. split; [|done].
           by apply Ascii.eqb_neq.
        -- intros [H Hpre]. destruct pre as [|e pre].
           ++ rewrite append_empty_l in H. injection H as H _. done.
           ++ rewrite append_String in H. injection H as <- H.
              simpl in Hpre. apply orb_false_iff in Hpre as [_ Hpre].
              assert (E' : Some (pre', post') = Some (pre, post)).
              { apply IH. done. }
              by injection E' as -> ->.
      * split; [done|]. intros [H Hpre]. destruct pre as [|e pre].
        -- rewrite append_empty_l in H. injection H as H _. done.
        -- rewrite append_String in H. injection H as <- H.
           simpl in Hpre. apply orb_false_iff in Hpre as [_ Hpre].
           assert (E' : @None (string * string) = Some (pre, post)).
           { apply IH. done. }
           discriminate E'.
Qed.

Lemma cut_None c s : cut c s = None ↔ PyStr.contains_char c s = false.
Proof.
  induction s as [|d s IH]; simpl; [done|].
  destruct (Ascii.eqb d c); simpl; [done|].
  rewrite <- IH. destruct (cut c s) as [[? ?]|]; done.
Qed.

(** [s.split(c, 1)] in terms of the first occurrence of [c]. *)
Lemma split1_cut c s :
  PyStr.split1 c s
  = match cut c s with
    | Some (pre, post) => [pre; post]
    | None => [s]
    end.
Proof.
  induction s as [|d s IH]; simpl; [done|].
  destruct (Ascii.eqb d c); [done|].
  rewrite IH. by destruct (cut c s) as [[? ?]|].
Qed.

(** ** Output file name *)

(** C5 as stated fails: the name derived from [https://docs.stripe.com] is
    not [docsstripe-com.md]. *)
Lemma generate_output_filename_stripe_fails :
  generate_output_filename "https://docs.stripe.com" "markdown"
  ≠ Returned "docsstripe-com.md".
Proof. vm_compute. discriminate. Qed.

(** C5 (amended): [generate_output_filename("https://docs.stripe.com",
    "markdown")] returns [docs-stripe-com.md]: the domain already contains
    [docs], so no prefix is added; dots become hyphens; the hyphens survive
    the stripping, which removes only what is neither a word character nor a
    hyphen; [.md] is appended. *)
Theorem generate_output_filename_stripe :
  generate_output_filename "https://docs.stripe.com" "markdown"
  = Returned "docs-stripe-com.md".
Proof. vm_compute. reflexivity. Qed.

(** ** Output formatter *)

Lemma bind_Returned {A B} (a : A) (k : A -> outcome B) :
  (Returned a ≫= k) = k a.
Proof. reflexivity. Qed.

(** C6 as stated fails: two results with bodies [a] and [b] are joined as
    <<a / b>>, with one line feed and no empty line between them. *)
Lemma format_results_blank_line_fails :
  let r1 := {| success := true; markdown := "a"; _crawl_metadata := None |} in
  let r2 := {| success := true; markdown := "b"; _crawl_metadata := None |} in
  2 ≤ length [r1; r2] ∧
  comprehension (format_result false) [r1; r2] = Returned ["a"; "b"] ∧
  format_results [r1; r2] false ≠ Returned (PyStr.join (NL +:+ NL) ["a"; "b"]).
Proof.
  split; [simpl; lia|]. split; [reflexivity|]. vm_compute. discriminate.
Qed.

Lemma comprehension_texts {A B} (f : A -> outcome B) l texts :
  Forall2 (fun a t => f a = Returned t) l texts →
  comprehension f l = Returned texts.
Proof.
  induction 1 as [|a t l texts Ha _ IH]; cbn [comprehension]; [done|].
  by rewrite Ha, bind_Returned, IH.
Qed.

(** C6 (amended): for every list of two or more results, [format_results]
    returns the per-result texts joined with a single line feed between
    consecutive results, and no empty line: for two results, the first
    text, one line feed, the second text. *)
Theorem format_results_line_feed results md texts :
  2 ≤ length results →
  Forall2 (fun r t => format_result md r = Returned t) results texts →
  format_results results md = Returned (PyStr.join NL texts) ∧
  (∀ t1 t2, texts = [t1; t2] →
            format_results results md = Returned (t1 +:+ NL +:+ t2)).
Proof.
  intros _ Hall.
  assert (H : format_results results md = Returned (PyStr.join NL texts)).
  { unfold format_results. by rewrite (comprehension_texts _ _ _ Hall). }
  split; [exact H|]. intros t1 t2 ->. exact H.
Qed.

Lemma format_results_line_feed_witness :
  let r1 := {| success := true; markdown := "a"; _crawl_metadata := None |} in
  let r2 := {| success := true; markdown := "b"; _crawl_metadata := None |} in
  let r3 := {| success := true; markdown := "c"; _crawl_metadata := None |} in
  2 ≤ length [r1; r2; r3] ∧
  Forall2 (fun r t => format_result false r = Returned t)
          [r1; r2; r3] ["a"; "b"; "c"] ∧
  format_results [r1; r2; r3] false
  = Returned ("a" +:+ NL +:+ "b" +:+ NL +:+ "c").
Proof.
  intros r1 r2 r3.
  assert (H1 : 2 ≤ length [r1; r2; r3]) by (simpl; lia).
  assert (H2 : Forall2 (fun r t => format_result false r = Returned t)
                       [r1; r2; r3] ["a"; "b"; "c"]).
  { repeat (apply Forall2_cons; split; [reflexivity|]). apply Forall2_nil. done. }
  split; [exact H1|]. split; [exact H2|].
  exact (proj1 (format_results_line_feed [r1; r2; r3] false ["a"; "b"; "c"] H1 H2)).
Defined.

Lemma format_result_metadata r u t p s :
  has_metadata r u t p s →
  format_result true r
  = Returned (metadata_block (fmt u) (fmt t) (fmt p) (fmt s) +:+ markdown r).
Proof.
  intros (m & Hm & Hu & Ht & Hp & Hs).
  unfold format_result, get_or_unknown. rewrite Hm, Hu, Ht, Hp, Hs. simpl.
  unfold mret, outcome_ret. f_equal. unfold metadata_block.
  rewrite !join_two. cbn [PyStr.join]. rewrite !append_assoc. reflexivity.
Qed.

(** C7: with metadata enabled, two results that carry metadata give a
    document made of two metadata blocks, in input order, each listing the
    source URL, the crawl timestamp, the page count and the strategy of its
    result, closed by the separator line and followed by the markdown body
    of that result. *)
Theorem format_results_two_blocks r1 r2 u1 t1 p1 s1 u2 t2 p2 s2 :
  has_metadata r1 u1 t1 p1 s1 →
  has_metadata r2 u2 t2 p2 s2 →
  format_results [r1; r2] true
  = Returned (metadata_block (fmt u1) (fmt t1) (fmt p1) (fmt s1) +:+ markdown r1
              +:+ NL +:+
              metadata_block (fmt u2) (fmt t2) (fmt p2) (fmt s2) +:+ markdown r2).
Proof.
  intros H1 H2. unfold format_results. cbn [comprehension].
  rewrite (format_result_metadata _ _ _ _ _ H1), bind_Returned.
  rewrite (format_result_metadata _ _ _ _ _ H2), !bind_Returned.
  cbn [PyStr.join]. by rewrite !append_assoc.
Qed.

Lemma collect_has_metadata url inc exc ts r :
  has_metadata (collect url inc exc ts r)
    (PStr url) (PStr ts) (PInt 1) (PStr "single-page").
Proof.
  eexists. split; [reflexivity|]. repeat split; by simplify_map_eq.
Qed.

Lemma format_results_two_blocks_witness :
  let raw1 := {| success := true; markdown := "# A"; _crawl_metadata := None |} in
  let raw2 := {| success := true; markdown := "# B"; _crawl_metadata := None |} in
  let r1 := collect "https://x.dev" None None "2024-05-01 10:00:00" raw1 in
  let r2 := collect "https://x.dev" None None "2024-05-01 10:00:01" raw2 in
  has_metadata r1 (PStr "https://x.dev") (PStr "2024-05-01 10:00:00")
    (PInt 1) (PStr "single-page") ∧
  has_metadata r2 (PStr "https://x.dev") (PStr "2024-05-01 10:00:01")
    (PInt 1) (PStr "single-page") ∧
  format_results [r1; r2] true
  = Returned
      (metadata_block "https://x.dev" "2024-05-01 10:00:00" "1" "single-page"
       +:+ "# A" +:+ NL +:+
       metadata_block "https://x.dev" "2024-05-01 10:00:01" "1" "single-page"
       +:+ "# B").
Proof.
  intros raw1 raw2 r1 r2.
  pose proof (collect_has_metadata "https://x.dev" None None
                "2024-05-01 10:00:00" raw1) as H1.
  pose proof (collect_has_metadata "https://x.dev" None None
                "2024-05-01 10:00:01" raw2) as H2.
  split; [exact H1|]. split; [exact H2|].
  exact (format_results_two_blocks r1 r2 _ _ _ _ _ _ _ _ H1 H2).
Defined.

(** ** Cookie parser *)

Section CookieFacts.

Context {json : Type} (fs : string -> option (outcome json)).

Lemma cookie_step_segment cs segment :
  cookie_step (Returned cs) segment
  = Returned (cs ++ match segment_cookie segment with
                    | Some c => [c]
                    | None => []
                    end).
Proof.
  unfold cookie_step, segment_cookie. rewrite bind_Returned, split1_cut.
  destruct (cut "=" segment) as [[n v]|] eqn:E.
  - assert (Hc : PyStr.contains_char "=" segment = true).
    { destruct (PyStr.contains_char "=" segment) eqn:Hc; [done|].
      apply cut_None in Hc. congruence. }
    rewrite Hc. reflexivity.
  - apply cut_None in E. rewrite E. by rewrite app_nil_r.
Qed.

Lemma cookie_loop segments cs :
  fold_left cookie_step segments (Returned cs)
  = Returned (cs ++ omap segment_cookie segments).
Proof.
  revert cs. induction segments as [|seg rest IH]; intros cs; cbn [fold_left].
  - by rewrite app_nil_r.
  - rewrite cookie_step_segment, IH. f_equal. simpl.
    rewrite <- app_assoc. by destruct (segment_cookie seg).
Qed.

Lemma parse_cookies_not_file s :
  s ≠ "" → fs s = None →
  parse_cookies json fs (Some s) = ([], Returned (inline_cookies s)).
Proof.
  intros Hs Hfs. unfold parse_cookies, inline_cookies.
  apply truthy_true in Hs. rewrite Hs, Hfs. simpl.
  change (mret []) with (Returned (@nil cookie)).
  rewrite cookie_loop, bind_Returned. simpl.
  by destruct (omap segment_cookie (PyStr.split ";" s)).
Qed.

End CookieFacts.



(** ** Trimming *)

Lemma rstrip_String c s :
  PyStr.rstrip (String c s)
  = match PyStr.rstrip s with
    | EmptyString => if PyStr.isspace c then EmptyString else String c EmptyString
    | String d r => String c (String d r)
    end.
Proof. reflexivity. Qed.

Lemma lstrip_split s :
  ∃ l, s = l +:+ PyStr.lstrip s ∧ blank l = true ∧
       no_space (first_char (PyStr.lstrip s)) = true.
Proof.
  induction s as [|c s (l & Hs & Hl & Hf)]; [by exists ""|].
  simpl. destruct (PyStr.isspace c) eqn:Hc.
  - exists (String c l). rewrite append_String, <- Hs.
    split; [done|]. split; [|done]. unfold blank. simpl. by rewrite Hc.
  - exists "". split; [done|]. split; [done|]. simpl. by rewrite Hc.
Qed.

Lemma rstrip_split s :
  ∃ r, s = PyStr.rstrip s +:+ r ∧ blank r = true ∧
       no_space (last_char (PyStr.rstrip s)) = true.
Proof.
  induction s as [|c s (r & Hs & Hr & Hl)]; [by exists ""|].
  rewrite rstrip_String. destruct (PyStr.rstrip s) as [|d t] eqn:E.
  - rewrite append_empty_l in Hs. subst r.
    destruct (PyStr.isspace c) eqn:Hc.
    + exists (String c s). split; [done|]. split; [|done].
      unfold blank in *. simpl. by rewrite Hc.
    + exists s. split; [done|]. split; [done|]. simpl. by rewrite Hc.
  - exists r. rewrite append_String, <- Hs. by repeat split.
Qed.

Lemma rstrip_first s :
  no_space (first_char s) = true →
  no_space (first_char (PyStr.rstrip s)) = true.
Proof.
  destruct s as [|c s]; [done|]. simpl. intros Hc.
  destruct (PyStr.rstrip s); [|done].
  apply negb_true_iff in Hc. by rewrite Hc; simpl; rewrite Hc.
Qed.

(** [strip] trims: its result is the argument without its leading and
    trailing whitespace. *)
Lemma strip_trim_of s : trim_of s (PyStr.strip s).
Proof.
  destruct (lstrip_split s) as (l & Hs & Hl & Hf).
  destruct (rstrip_split (PyStr.lstrip s)) as (r & Hs' & Hr & Hla).
  exists l, r. unfold PyStr.strip. split; [by rewrite <- Hs'|].
  split; [done|]. split; [done|]. unfold tight.
  by rewrite (rstrip_first _ Hf), Hla.
Qed.

Lemma lstrip_blank r : blank r = true → PyStr.lstrip r = "".
Proof.
  unfold blank. induction r as [|c r IH]; simpl; [done|].
  intros [Hc Hr]%andb_true_iff. rewrite Hc. by apply IH.
Qed.

Lemma rstrip_blank r : blank r = true → PyStr.rstrip r = "".
Proof.
  unfold blank. induction r as [|c r IH]; simpl; [done|].
  intros [Hc Hr]%andb_true_iff. by rewrite (IH Hr), Hc.
Qed.

Lemma lstrip_blank_app l x :
  blank l = true → PyStr.lstrip (l +:+ x) = PyStr.lstrip x.
Proof.
  unfold blank. induction l as [|c l IH]; [done|].
  cbn [UrlLib.all_chars]. intros [Hc Hl]%andb_true_iff.
  rewrite append_String. cbn [PyStr.lstrip]. rewrite Hc. by apply IH.
Qed.

Lemma rstrip_app_blank t r :
  blank r = true → PyStr.rstrip (t +:+ r) = PyStr.rstrip t.
Proof.
  intros Hr. induction t as [|c t IH].
  - rewrite append_empty_l. by apply rstrip_blank.
  - by rewrite append_String, !rstrip_String, IH.
Qed.

Lemma rstrip_tight t : no_space (last_char t) = true → PyStr.rstrip t = t.
Proof.
  induction t as [|c t IH]; [done|]. rewrite rstrip_String.
  destruct t as [|d u].
  - simpl. intros Hc. apply negb_true_iff in Hc. by rewrite Hc.
  - intros Hl. by rewrite (IH Hl).
Qed.

(** The description of trimming determines the result. *)
Lemma trim_of_strip s t : trim_of s t → t = PyStr.strip s.
Proof.
  intros (l & r & -> & Hl & Hr & Ht). unfold PyStr.strip.
  rewrite (lstrip_blank_app _ _ Hl).
  apply andb_true_iff in Ht as [Hf Hla].
  destruct t as [|c t].
  - rewrite append_empty_l, (lstrip_blank _ Hr). done.
  - rewrite append_String. simpl in *.
    apply negb_true_iff in Hf. rewrite Hf.
    rewrite <- append_String, (rstrip_app_blank _ _ Hr).
    symmetry. by apply rstrip_tight.
Qed.

(** ** Auth header parser *)

(** C9: for every string that contains [:], [parse_auth_header] cuts it at
    the first [:] and returns the one-entry mapping from the key to the
    value, each without its leading and trailing whitespace
    ([Authorization: Bearer xyz] gives the entry Authorization -> Bearer
    xyz, and [X-Key : a:b ] the entry X-Key -> a:b); for every non-empty
    string without [:] it returns absence and prints a warning; no input
    makes it raise. *)
Theorem parse_auth_header_spec :
  (∀ s, PyStr.contains_char ":" s = true →
        ∃ k v, s = k +:+ ":" +:+ v ∧ PyStr.contains_char ":" k = false ∧
               trim_of k (PyStr.strip k) ∧ trim_of v (PyStr.strip v) ∧
               parse_auth_header (Some s)
               = ([], Returned (Some {[ PyStr.strip k := PyStr.strip v ]}))) ∧
  parse_auth_header (Some "Authorization: Bearer xyz")
  = ([], Returned (Some {[ "Authorization" := "Bearer xyz" ]})) ∧
  parse_auth_header (Some "  X-Key : a:b ")
  = ([], Returned (Some {[ "X-Key" := "a:b" ]})) ∧
  (∀ s, s ≠ "" → PyStr.contains_char ":" s = false →
        parse_auth_header (Some s)
        = (["Warning: Invalid auth header format: " +:+ s], Returned None)) ∧
  (∀ a, ∃ r, (parse_auth_header a).2 = Returned r).
Proof.
  split; [|split; [reflexivity|split; [reflexivity|split]]].
  - intros s Hs.
    destruct (cut ":" s) as [[k v]|] eqn:E.
    + exists k, v. pose proof (proj1 (cut_Some _ _ _ _) E) as [Heq Hk].
      split; [done|]. split; [done|].
      split; [apply strip_trim_of|]. split; [apply strip_trim_of|].
      unfold parse_auth_header.
      assert (Ht : PyStr.truthy s = true) by (by destruct s).
      rewrite Ht, Hs, split1_cut, E. reflexivity.
    + apply cut_None in E. congruence.
  - intros s Hne Hs. unfold parse_auth_header.
    apply truthy_true in Hne. by rewrite Hne, Hs.
  - intros [s|]; [|by eexists].
    unfold parse_auth_header.
    destruct (PyStr.truthy s); simpl; [|by eexists].
    destruct (PyStr.contains_char ":" s) eqn:Hs; simpl; [|by eexists].
    rewrite split1_cut. destruct (cut ":" s) as [[k v]|] eqn:E.
    + by eexists.
    + apply cut_None in E. congruence.
Qed.

Lemma parse_auth_header_spec_witness :
  ("malformed" ≠ "" ∧ PyStr.contains_char ":" "malformed" = false ∧
   parse_auth_header (Some "malformed")
   = (["Warning: Invalid auth header format: malformed"], Returned None)) ∧
  (PyStr.contains_char ":" " X-Key : a:b " = true ∧
   (∃ k v, " X-Key : a:b " = k +:+ ":" +:+ v ∧
           PyStr.contains_char ":" k = false ∧
           trim_of k (PyStr.strip k) ∧ trim_of v (PyStr.strip v) ∧
           parse_auth_header (Some " X-Key : a:b ")
           = ([], Returned (Some {[ PyStr.strip k := PyStr.strip v ]}))) ∧
   parse_auth_header (Some " X-Key : a:b ")
   = ([], Returned (Some {[ "X-Key" := "a:b" ]}))).
Proof.
  assert (H1 : "malformed" ≠ "") by discriminate.
  assert (H2 : PyStr.contains_char ":" "malformed" = false) by reflexivity.
  assert (H3 : PyStr.contains_char ":" " X-Key : a:b " = true) by reflexivity.
  split.
  - split; [exact H1|]. split; [exact H2|].
    exact (proj1 (proj2 (proj2 (proj2 parse_auth_header_spec))) "malformed" H1 H2).
  - split; [exact H3|]. split; [|reflexivity].
    exact (proj1 parse_auth_header_spec " X-Key : a:b " H3).
Defined.

(** ** The section filter: further properties *)

Section FilterMore.

Variables include_list exclude_list : list string.

Abbreviation keptm := (kept include_list exclude_list).
Abbreviation verdictm := (header_verdict include_list exclude_list).

(** When every header gets a positive verdict, every line is kept. *)
Lemma kept_all_pass lines :
  Forall (fun l => is_header l = true → verdictm l = true) lines →
  keptm true lines = lines.
Proof.
  induction 1 as [|line rest Hl _ IH]; simpl; [done|].
  unfold is_header in Hl. destruct (PyStr.startswith "#" line).
  - rewrite (Hl eq_refl). by rewrite IH.
  - by rewrite IH.
Qed.

(** A header that is kept got a positive verdict. *)
Lemma kept_headers_pass b lines :
  Forall (fun l => is_header l = true → verdictm l = true) (keptm b lines).
Proof.
  revert b. induction lines as [|line rest IH]; intros b; simpl; [done|].
  destruct (PyStr.startswith "#" line) eqn:Hh.
  - destruct (verdictm line) eqn:Hv; [|apply IH].
    constructor; [done|apply IH].
  - destruct b; [|apply IH].
    constructor; [|apply IH]. unfold is_header. by rewrite Hh.
Qed.

End FilterMore.

Lemma kept_ext il el il' el' b lines :
  (∀ l, header_verdict il el l = header_verdict il' el' l) →
  kept il el b lines = kept il' el' b lines.
Proof.
  intros Hv. revert b. induction lines as [|line rest IH]; intros b; simpl; [done|].
  rewrite Hv. by rewrite !IH.
Qed.

(** The lines of the output are the kept lines, unless the output is empty. *)
Lemma doc_lines_kept content inc exc :
  doc_lines (filter_sections content inc exc)
  = kept (parse_sections inc) (parse_sections exc) true (PyStr.split LF content)
  ∨ doc_lines (filter_sections content inc exc) = [].
Proof.
  rewrite filter_sections_kept. destruct (PyStr.truthy content) eqn:Hc.
  - set (ks := kept _ _ true (PyStr.split LF content)).
    unfold doc_lines. destruct (PyStr.truthy (PyStr.join NL ks)) eqn:Hj; [|by right].
    left. apply split_join.
    + intros E. rewrite E in Hj. discriminate.
    + eapply Forall_sublist; [apply kept_sublist|]. apply split_pieces.
  - right. unfold doc_lines. by rewrite Hc.
Qed.

Lemma append_length s t :
  String.length (s +:+ t) = String.length s + String.length t.
Proof.
  induction s as [|c s IH]; [done|]. rewrite append_String. simpl. by rewrite IH.
Qed.

Lemma join_length lines :
  String.length (PyStr.join NL lines) = joined_length lines.
Proof.
  induction lines as [|x [|y rest] IH]; [done..|].
  rewrite join_two, !append_length, IH. simpl. lia.
Qed.

Lemma joined_length_sublist k l :
  k `sublist_of` l → joined_length k ≤ joined_length l.
Proof.
  induction 1 as [|x k l Hkl IH|x k l Hkl IH]; [done| |].
  - destruct k as [|y k]; destruct l as [|z l]; simpl in *; try lia.
    inversion Hkl.
  - destruct l as [|z l]; simpl in *; lia.
Qed.

(** X1: with no include keyword and no exclude keyword (options absent,
    empty, or made of commas and blanks only) [filter_sections] returns the
    document unchanged. *)
Theorem filter_sections_no_keywords content inc exc :
  parse_sections inc = [] →
  parse_sections exc = [] →
  filter_sections content inc exc = content.
Proof.
  intros Hi He. rewrite filter_sections_kept, Hi, He.
  destruct (PyStr.truthy content); [|done].
  rewrite kept_all_pass; [apply join_split|].
  apply Forall_forall. intros l _ _. reflexivity.
Qed.

Lemma filter_sections_no_keywords_witness :
  let content := "# Blog" +:+ NL +:+ "post" in
  parse_sections (Some " , ,") = [] ∧ parse_sections None = [] ∧
  filter_sections content (Some " , ,") None = content.
Proof.
  intros content.
  assert (H1 : parse_sections (Some " , ,") = []) by (vm_compute; reflexivity).
  assert (H2 : parse_sections None = []) by reflexivity.
  split; [exact H1|]. split; [exact H2|].
  exact (filter_sections_no_keywords content (Some " , ,") None H1 H2).
Defined.

(** X2: the include list takes precedence: once it holds a keyword, the
    exclude option has no influence on the result. *)
Theorem filter_sections_include_precedence content inc exc exc' :
  parse_sections inc ≠ [] →
  filter_sections content inc exc = filter_sections content inc exc'.
Proof.
  intros Hi. rewrite !filter_sections_kept.
  destruct (PyStr.truthy content); [|done]. f_equal.
  apply kept_ext. intros l. by rewrite !verdict_include.
Qed.

Lemma filter_sections_include_precedence_witness :
  let content := "# API" +:+ NL +:+ "x" +:+ NL +:+ "# Blog" +:+ NL +:+ "y" in
  parse_sections (Some "api") ≠ [] ∧
  filter_sections content (Some "api") (Some "api")
  = filter_sections content (Some "api") None.
Proof.
  intros content.
  assert (H1 : parse_sections (Some "api") ≠ []) by (vm_compute; discriminate).
  split; [exact H1|].
  exact (filter_sections_include_precedence content (Some "api") (Some "api") None H1).
Defined.

(** X3: with only an exclude list, no header line of the output contains an
    exclude keyword. *)
Theorem filter_sections_excluded_absent content inc exc line k :
  parse_sections inc = [] →
  line ∈ doc_lines (filter_sections content inc exc) →
  is_header line = true →
  k ∈ parse_sections exc →
  PyStr.contains k (header_text line) = false.
Proof.
  intros Hi Hline Hh Hk.
  destruct (doc_lines_kept content inc exc) as [E|E]; rewrite E in Hline;
    [|by apply elem_of_nil in Hline].
  pose proof (kept_headers_pass (parse_sections inc) (parse_sections exc)
                true (PyStr.split LF content)) as Hall.
  rewrite Forall_forall in Hall. specialize (Hall line Hline Hh).
  rewrite Hi in Hall. unfold header_verdict in Hall. simpl in Hall.
  destruct (parse_sections exc) as [|k0 ks] eqn:He; [by apply elem_of_nil in Hk|].
  cbn [nonempty] in Hall. apply negb_true_iff in Hall.
  unfold any_in in Hall.
  destruct (PyStr.contains k (header_text line)) eqn:Hc; [|done].
  assert (Hex : existsb (fun section =>
             PyStr.contains section
               (PyStr.lower (PyStr.strip (PyStr.lstrip_char "#" line))))
             (k0 :: ks) = true).
  { apply existsb_exists. exists k. split; [by apply list_elem_of_In|exact Hc]. }
  congruence.
Qed.

Lemma filter_sections_excluded_absent_witness :
  let content := "# API" +:+ NL +:+ "x" +:+ NL +:+ "# Blog" +:+ NL +:+ "y" in
  parse_sections None = [] ∧
  "# API" ∈ doc_lines (filter_sections content None (Some "blog")) ∧
  is_header "# API" = true ∧
  "blog" ∈ parse_sections (Some "blog") ∧
  PyStr.contains "blog" (header_text "# API") = false.
Proof.
  intros content.
  assert (H1 : parse_sections None = []) by reflexivity.
  assert (H2 : "# API" ∈ doc_lines (filter_sections content None (Some "blog"))).
  { vm_compute. apply list_elem_of_here. }
  assert (H3 : is_header "# API" = true) by reflexivity.
  assert (H4 : "blog" ∈ parse_sections (Some "blog")).
  { vm_compute. apply list_elem_of_here. }
  split; [exact H1|]. split; [exact H2|]. split; [exact H3|]. split; [exact H4|].
  exact (filter_sections_excluded_absent content None (Some "blog") "# API" "blog"
           H1 H2 H3 H4).
Defined.

(** X4: with an include list, every header line of the output contains one
    of the include keywords. *)
Theorem filter_sections_included_only content inc exc line :
  parse_sections inc ≠ [] →
  line ∈ doc_lines (filter_sections content inc exc) →
  is_header line = true →
  ∃ k, k ∈ parse_sections inc ∧ PyStr.contains k (header_text line) = true.
Proof.
  intros Hi Hline Hh.
  destruct (doc_lines_kept content inc exc) as [E|E]; rewrite E in Hline;
    [|by apply elem_of_nil in Hline].
  pose proof (kept_headers_pass (parse_sections inc) (parse_sections exc)
                true (PyStr.split LF content)) as Hall.
  rewrite Forall_forall in Hall. specialize (Hall line Hline Hh).
  rewrite verdict_include in Hall by done.
  unfold mentions in Hall. apply existsb_exists in Hall as (k & Hk & Hc).
  exists k. split; [by apply list_elem_of_In|exact Hc].
Qed.

Lemma filter_sections_included_only_witness :
  let content := "# API ref" +:+ NL +:+ "x" +:+ NL +:+ "# Blog" +:+ NL +:+ "y" in
  parse_sections (Some "guide,api") ≠ [] ∧
  "# API ref" ∈ doc_lines (filter_sections content (Some "guide,api") None) ∧
  is_header "# API ref" = true ∧
  ∃ k, k ∈ parse_sections (Some "guide,api") ∧
       PyStr.contains k (header_text "# API ref") = true.
Proof.
  intros content.
  assert (H1 : parse_sections (Some "guide,api") ≠ []) by (vm_compute; discriminate).
  assert (H2 : "# API ref" ∈ doc_lines (filter_sections content (Some "guide,api") None)).
  { vm_compute. apply list_elem_of_here. }
  assert (H3 : is_header "# API ref" = true) by reflexivity.
  split; [exact H1|]. split; [exact H2|]. split; [exact H3|].
  exact (filter_sections_included_only content (Some "guide,api") None "# API ref"
           H1 H2 H3).
Defined.

(** X5: when every header line of the document gets a positive verdict,
    nothing is removed: the document is returned unchanged. *)
Theorem filter_sections_all_pass content inc exc :
  Forall (fun l => is_header l = true →
                   header_verdict (parse_sections inc) (parse_sections exc) l = true)
         (PyStr.split LF content) →
  filter_sections content inc exc = content.
Proof.
  intros Hall. rewrite filter_sections_kept.
  destruct (PyStr.truthy content); [|done].
  rewrite kept_all_pass by exact Hall. apply join_split.
Qed.

Lemma filter_sections_all_pass_witness :
  let content := "# API" +:+ NL +:+ "x" +:+ NL +:+ "## api v2" +:+ NL +:+ "y" in
  Forall (fun l => is_header l = true →
                   header_verdict (parse_sections (Some "API")) (parse_sections None) l = true)
         (PyStr.split LF content) ∧
  filter_sections content (Some "API") None = content.
Proof.
  intros content.
  assert (H1 : Forall (fun l => is_header l = true →
                   header_verdict (parse_sections (Some "API")) (parse_sections None) l = true)
         (PyStr.split LF content)).
  { assert (Hs : PyStr.split LF content = ["# API"; "x"; "## api v2"; "y"])
      by (vm_compute; reflexivity).
    rewrite Hs.
    repeat (apply Forall_cons; split;
            [intros Hh; first [vm_compute; reflexivity | discriminate Hh]|]).
    apply Forall_nil. done. }
  split; [exact H1|].
  exact (filter_sections_all_pass content (Some "API") None H1).
Defined.

(** X6: the output of [filter_sections] is never longer than its input. *)
Theorem filter_sections_length content inc exc :
  String.length (filter_sections content inc exc) ≤ String.length content.
Proof.
  rewrite filter_sections_kept. destruct (PyStr.truthy content); [|done].
  rewrite join_length.
  rewrite <- (join_split LF content) at 2. fold NL. rewrite join_length.
  apply joined_length_sublist, kept_sublist.
Qed.

(** ** Trimming and lowercasing *)

Lemma isspace_lower_char c : PyStr.isspace (PyStr.lower_char c) = PyStr.isspace c.
Proof. destruct c as [[] [] [] [] [] [] [] []]; vm_compute; reflexivity. Qed.

Lemma lower_char_idem c : PyStr.lower_char (PyStr.lower_char c) = PyStr.lower_char c.
Proof. destruct c as [[] [] [] [] [] [] [] []]; vm_compute; reflexivity. Qed.

Lemma lower_char_comma c : Ascii.eqb (PyStr.lower_char c) "," = Ascii.eqb c ",".
Proof. destruct c as [[] [] [] [] [] [] [] []]; vm_compute; reflexivity. Qed.

Lemma lower_char_hash c : Ascii.eqb (PyStr.lower_char c) "#" = Ascii.eqb c "#".
Proof. destruct c as [[] [] [] [] [] [] [] []]; vm_compute; reflexivity. Qed.

Lemma lower_idem s : PyStr.lower (PyStr.lower s) = PyStr.lower s.
Proof. induction s as [|c s IH]; simpl; [done|]. by rewrite lower_char_idem, IH. Qed.

Lemma lstrip_lower s : PyStr.lstrip (PyStr.lower s) = PyStr.lower (PyStr.lstrip s).
Proof.
  induction s as [|c s IH]; simpl; [done|].
  rewrite isspace_lower_char. by destruct (PyStr.isspace c).
Qed.

Lemma rstrip_lower s : PyStr.rstrip (PyStr.lower s) = PyStr.lower (PyStr.rstrip s).
Proof.
  induction s as [|c s IH]; simpl; [done|].
  rewrite IH, isspace_lower_char.
  destruct (PyStr.rstrip s); simpl; [|done]. by destruct (PyStr.isspace c).
Qed.

Lemma strip_lower s : PyStr.strip (PyStr.lower s) = PyStr.lower (PyStr.strip s).
Proof. unfold PyStr.strip. by rewrite lstrip_lower, rstrip_lower. Qed.

Lemma truthy_lower s : PyStr.truthy (PyStr.lower s) = PyStr.truthy s.
Proof. by destruct s. Qed.

Lemma lstrip_idem s : PyStr.lstrip (PyStr.lstrip s) = PyStr.lstrip s.
Proof.
  induction s as [|c s IH]; simpl; [done|].
  destruct (PyStr.isspace c) eqn:Hc; [done|]. simpl. by rewrite Hc.
Qed.

Lemma rstrip_idem s : PyStr.rstrip (PyStr.rstrip s) = PyStr.rstrip s.
Proof.
  induction s as [|c s IH]; [done|]. rewrite rstrip_String.
  destruct (PyStr.rstrip s) as [|d r] eqn:E.
  - destruct (PyStr.isspace c) eqn:Hc; [done|].
    rewrite rstrip_String. simpl. by rewrite Hc.
  - rewrite rstrip_String. by rewrite IH.
Qed.

(** A string that starts with a character that is no space is left alone by
    [lstrip], also after [rstrip]. *)
Lemma lstrip_rstrip_lstrip s :
  PyStr.lstrip (PyStr.rstrip (PyStr.lstrip s)) = PyStr.rstrip (PyStr.lstrip s).
Proof.
  induction s as [|c s IH]; simpl; [done|].
  destruct (PyStr.isspace c) eqn:Hc; [done|].
  rewrite rstrip_String.
  destruct (PyStr.rstrip s); rewrite ?Hc; simpl; by rewrite Hc.
Qed.

Lemma strip_idem s : PyStr.strip (PyStr.strip s) = PyStr.strip s.
Proof.
  unfold PyStr.strip. by rewrite lstrip_rstrip_lstrip, rstrip_idem.
Qed.

Lemma lstrip_keeps_absent c s :
  PyStr.contains_char c s = false → PyStr.contains_char c (PyStr.lstrip s) = false.
Proof.
  induction s as [|d s IH]; simpl; [done|]. intros H.
  apply orb_false_iff in H as [Hd Hs].
  destruct (PyStr.isspace d); [by apply IH|]. simpl. by rewrite Hd, Hs.
Qed.

Lemma rstrip_keeps_absent c s :
  PyStr.contains_char c s = false → PyStr.contains_char c (PyStr.rstrip s) = false.
Proof.
  induction s as [|d s IH]; simpl; [done|]. intros H.
  apply orb_false_iff in H as [Hd Hs]. specialize (IH Hs).
  destruct (PyStr.rstrip s); simpl in *.
  - destruct (PyStr.isspace d); simpl; [done|]. by rewrite Hd.
  - by rewrite Hd, IH.
Qed.

Lemma lower_keeps_comma s :
  PyStr.contains_char "," (PyStr.lower s) = PyStr.contains_char "," s.
Proof.
  induction s as [|d s IH]; simpl; [done|]. by rewrite lower_char_comma, IH.
Qed.

Lemma split_lower s :
  PyStr.split "," (PyStr.lower s) = map PyStr.lower (PyStr.split "," s).
Proof.
  induction s as [|c s IH]; simpl; [done|].
  rewrite lower_char_comma, IH. destruct (Ascii.eqb c ","); [done|].
  pose proof (split_not_nil "," s). by destruct (PyStr.split "," s).
Qed.

Lemma keywords_of_lowered pieces :
  map (fun p => PyStr.lower (PyStr.strip p))
      (filter (fun p => Is_true (PyStr.truthy (PyStr.strip p)))
              (map PyStr.lower pieces))
  = map (fun p => PyStr.lower (PyStr.strip p))
        (filter (fun p => Is_true (PyStr.truthy (PyStr.strip p))) pieces).
Proof.
  induction pieces as [|p rest IH]; [done|]. cbn [map].
  rewrite !filter_cons, strip_lower, truthy_lower.
  destruct (decide (Is_true (PyStr.truthy (PyStr.strip p)))); [|exact IH].
  cbn [map]. by rewrite strip_lower, lower_idem, IH.
Qed.

(** ** Section keywords *)

(** X7: every keyword [parse_sections] returns is non-empty, trimmed,
    lowercase and free of commas. *)
Theorem parse_sections_keywords sections_str k :
  k ∈ parse_sections sections_str →
  k ≠ "" ∧ PyStr.strip k = k ∧ PyStr.lower k = k ∧
  PyStr.contains_char "," k = false.
Proof.
  unfold parse_sections. destruct sections_str as [s|]; [|by intros ?%elem_of_nil].
  destruct (PyStr.truthy s); simpl; [|by intros ?%elem_of_nil].
  intros Hk. apply list_elem_of_In, in_map_iff in Hk as (p & <- & Hp).
  apply list_elem_of_In, list_elem_of_filter in Hp as [Ht Hp].
  repeat split.
  - apply truthy_true. rewrite truthy_lower. by apply Is_true_true.
  - by rewrite <- strip_lower, strip_idem.
  - apply lower_idem.
  - rewrite lower_keeps_comma. unfold PyStr.strip.
    apply rstrip_keeps_absent, lstrip_keeps_absent.
    pose proof (split_pieces "," s) as Hall. rewrite Forall_forall in Hall.
    by apply Hall.
Qed.

Lemma parse_sections_keywords_witness :
  "api ref" ∈ parse_sections (Some " Guides , API Ref ,,") ∧
  ("api ref" ≠ "" ∧ PyStr.strip "api ref" = "api ref" ∧
   PyStr.lower "api ref" = "api ref" ∧
   PyStr.contains_char "," "api ref" = false).
Proof.
  assert (H1 : "api ref" ∈ parse_sections (Some " Guides , API Ref ,,")).
  { vm_compute. apply list_elem_of_further, list_elem_of_here. }
  split; [exact H1|].
  exact (parse_sections_keywords (Some " Guides , API Ref ,,") "api ref" H1).
Defined.

(** X8: the keywords do not depend on the case of the option string:
    lowercasing it first gives the same list, and so the same filter. *)
Theorem parse_sections_case_insensitive s content exc :
  parse_sections (Some (PyStr.lower s)) = parse_sections (Some s) ∧
  filter_sections content (Some (PyStr.lower s)) exc
  = filter_sections content (Some s) exc.
Proof.
  assert (H : parse_sections (Some (PyStr.lower s)) = parse_sections (Some s)).
  { unfold parse_sections. rewrite truthy_lower.
    destruct (PyStr.truthy s); simpl; [|done].
    rewrite split_lower. apply keywords_of_lowered. }
  split; [exact H|]. by rewrite !filter_sections_kept, H.
Qed.

(** X9: the verdict on a header does not depend on the case of the header
    line. *)
Theorem header_verdict_case_insensitive include_list exclude_list line :
  header_verdict include_list exclude_list (PyStr.lower line)
  = header_verdict include_list exclude_list line.
Proof.
  unfold header_verdict.
  assert (H : PyStr.lstrip_char "#" (PyStr.lower line)
              = PyStr.lower (PyStr.lstrip_char "#" line)).
  { induction line as [|c r IH]; simpl; [done|].
    rewrite lower_char_hash. by destruct (Ascii.eqb c "#"). }
  by rewrite H, strip_lower, lower_idem.
Qed.

(** ** Output file name: further properties *)

Lemma all_chars_keep p s : UrlLib.all_chars p (PyStr.keep_chars p s) = true.
Proof.
  induction s as [|c s IH]; simpl; [done|].
  destruct (p c) eqn:Hc; simpl; [by rewrite Hc|done].
Qed.

Lemma all_chars_absent p c s :
  p c = false → UrlLib.all_chars p s = true → PyStr.contains_char c s = false.
Proof.
  intros Hc. induction s as [|d s IH]; simpl; [done|].
  intros [Hd Hs]%andb_true_iff. rewrite (IH Hs), orb_false_r.
  apply Ascii.eqb_neq. intros ->. congruence.
Qed.

Lemma contains_char_app c s t :
  PyStr.contains_char c (s +:+ t)
  = PyStr.contains_char c s || PyStr.contains_char c t.
Proof.
  induction s as [|d s IH]; [done|].
  rewrite append_String. simpl. by rewrite IH, orb_assoc.
Qed.

Lemma extensions_lookup format ext :
  extensions !! format = Some ext →
  (format = "markdown" ∧ ext = "md") ∨ (format = "json" ∧ ext = "json")
  ∨ (format = "xml" ∧ ext = "xml").
Proof.
  unfold extensions. intros H.
  destruct (decide (format = "markdown")) as [->|H1].
  { rewrite lookup_insert_eq in H. injection H as <-. by left. }
  rewrite lookup_insert_ne in H by done.
  destruct (decide (format = "json")) as [->|H2].
  { rewrite lookup_insert_eq in H. injection H as <-. right. by left. }
  rewrite lookup_insert_ne in H by done.
  destruct (decide (format = "xml")) as [->|H3].
  { rewrite lookup_insert_eq in H. injection H as <-. right. by right. }
  rewrite lookup_insert_ne in H by done. by rewrite lookup_empty in H.
Qed.






(** The stem of the name: what precedes the extension. *)
Lemma generate_output_filename_stem url format name :
  generate_output_filename url format = Returned name →
  ∃ stem ext,
    name = stem +:+ "." +:+ ext ∧ extensions !! format = Some ext ∧
    UrlLib.all_chars name_char stem = true ∧
    PyStr.contains "docs" stem = true.
Proof.
  unfold generate_output_filename.
  destruct (UrlLib.netloc url) as [n|e]; [|done]. rewrite bind_Returned.
  set (d := PyStr.keep_chars _ _).
  destruct (extensions !! format) as [ext|] eqn:E; [|done].
  intros [= <-].
  assert (Hd : UrlLib.all_chars name_char d = true) by apply all_chars_keep.
  destruct (PyStr.contains "docs" d) eqn:Hc.
  - by exists d, ext.
  - exists ("docs-" +:+ d), ext.
    split; [done|]. split; [done|]. split; [|reflexivity].
    change ("docs-" +:+ d)
      with (String "d" (String "o" (String "c" (String "s" (String "-" d))))).
    simpl. exact Hd.
Qed.



(** X11: a generated name is a stem, a dot and the extension of the format;
    the stem contains [docs] and holds only word characters and hyphens, so
    the name has exactly that one dot and no path separator. *)
Theorem generate_output_filename_safe url format name :
  generate_output_filename url format = Returned name →
  ∃ stem ext,
    name = stem +:+ "." +:+ ext ∧ extensions !! format = Some ext ∧
    UrlLib.all_chars name_char stem = true ∧
    PyStr.contains "docs" stem = true ∧
    PyStr.contains_char "." stem = false ∧
    PyStr.contains_char "/" name = false.
Proof.
  intros H. destruct (generate_output_filename_stem _ _ _ H)
    as (stem & ext & -> & He & Hs & Hd).
  exists stem, ext. repeat split; try done.
  - by apply (all_chars_absent name_char).
  - rewrite !contains_char_app.
    rewrite (all_chars_absent name_char "/" stem) by done.
    by destruct (extensions_lookup _ _ He) as [[_ ->]|[[_ ->]|[_ ->]]].
Qed.

Lemma generate_output_filename_safe_witness :
  let url := "https://api.example.com:8080/v1/../x" in
  generate_output_filename url "xml" = Returned "docs-api-example-com8080.xml" ∧
  ∃ stem ext,
    "docs-api-example-com8080.xml" = stem +:+ "." +:+ ext ∧
    extensions !! "xml" = Some ext ∧
    UrlLib.all_chars name_char stem = true ∧
    PyStr.contains "docs" stem = true ∧
    PyStr.contains_char "." stem = false ∧
    PyStr.contains_char "/" "docs-api-example-com8080.xml" = false.
Proof.
  intros url.
  assert (H1 : generate_output_filename url "xml"
               = Returned "docs-api-example-com8080.xml")
    by (vm_compute; reflexivity).
  split; [exact H1|].
  exact (generate_output_filename_safe url "xml" _ H1).
Defined.

Lemma keep_chars_app p s t :
  PyStr.keep_chars p (s +:+ t) = PyStr.keep_chars p s +:+ PyStr.keep_chars p t.
Proof.
  induction s as [|c s IH]; [done|]. rewrite append_String. simpl.
  destruct (p c); [|exact IH]. by rewrite append_String, IH.
Qed.

Lemma until_delim_www s :
  UrlLib.until_delim ("www." +:+ s) = "www." +:+ UrlLib.until_delim s.
Proof. reflexivity. Qed.

Lemma unbalanced_www n : UrlLib.unbalanced ("www." +:+ n) = UrlLib.unbalanced n.
Proof. reflexivity. Qed.

Lemma replace_www x :
  PyStr.replace "www." "" ("www." +:+ x) = PyStr.replace "www." "" x.
Proof.
  unfold PyStr.replace.
  change ("www." +:+ x) with (String "w" (String "w" (String "w" (String "." x)))).
  simpl. by destruct x.
Qed.

(** X12: for [http] and [https] URLs without square brackets, a leading
    [www.] of the host does not change the name. *)
Theorem generate_output_filename_www rest format :
  no_brackets rest →
  generate_output_filename ("https://www." +:+ rest) format
  = generate_output_filename ("https://" +:+ rest) format ∧
  generate_output_filename ("http://www." +:+ rest) format
  = generate_output_filename ("http://" +:+ rest) format.
Proof.
  intros _.
  assert (H1 : UrlLib.netloc ("https://www." +:+ rest)
               = (n ← UrlLib.netloc ("https://" +:+ rest); Returned ("www." +:+ n))).
  { unfold UrlLib.netloc, UrlLib.cleaned.
    change (UrlLib.lstrip_c0 ("https://www." +:+ rest)) with ("https://www." +:+ rest).
    change (UrlLib.lstrip_c0 ("https://" +:+ rest)) with ("https://" +:+ rest).
    rewrite !keep_chars_app.
    set (r := PyStr.keep_chars _ rest).
    change (UrlLib.after_scheme (PyStr.keep_chars _ "https://www." +:+ r))
      with ("//www." +:+ r).
    change (UrlLib.after_scheme (PyStr.keep_chars _ "https://" +:+ r))
      with ("//" +:+ r).
    change ("//www." +:+ r) with (String "/" (String "/" ("www." +:+ r))).
    change ("//" +:+ r) with (String "/" (String "/" r)).
    cbv beta iota zeta. rewrite until_delim_www, unbalanced_www.
    by destruct (UrlLib.unbalanced (UrlLib.until_delim r)). }
  assert (H2 : UrlLib.netloc ("http://www." +:+ rest)
               = (n ← UrlLib.netloc ("http://" +:+ rest); Returned ("www." +:+ n))).
  { unfold UrlLib.netloc, UrlLib.cleaned.
    change (UrlLib.lstrip_c0 ("http://www." +:+ rest)) with ("http://www." +:+ rest).
    change (UrlLib.lstrip_c0 ("http://" +:+ rest)) with ("http://" +:+ rest).
    rewrite !keep_chars_app.
    set (r := PyStr.keep_chars _ rest).
    change (UrlLib.after_scheme (PyStr.keep_chars _ "http://www." +:+ r))
      with ("//www." +:+ r).
    change (UrlLib.after_scheme (PyStr.keep_chars _ "http://" +:+ r))
      with ("//" +:+ r).
    change ("//www." +:+ r) with (String "/" (String "/" ("www." +:+ r))).
    change ("//" +:+ r) with (String "/" (String "/" r)).
    cbv beta iota zeta. rewrite until_delim_www, unbalanced_www.
    by destruct (UrlLib.unbalanced (UrlLib.until_delim r)). }
  unfold generate_output_filename. rewrite H1, H2.
  split.
  - destruct (UrlLib.netloc ("https://" +:+ rest)) as [n|e]; [|done].
    rewrite !bind_Returned. by rewrite replace_www.
  - destruct (UrlLib.netloc ("http://" +:+ rest)) as [n|e]; [|done].
    rewrite !bind_Returned. by rewrite replace_www.
Qed.

Lemma generate_output_filename_www_witness :
  let rest := "Docs.Example.org:443/a b" in
  no_brackets rest ∧
  generate_output_filename ("https://www." +:+ rest) "markdown"
  = Returned "docs-Docs-Example-org443.md" ∧
  generate_output_filename ("https://www." +:+ rest) "markdown"
  = generate_output_filename ("https://" +:+ rest) "markdown".
Proof.
  intros rest.
  assert (H0 : no_brackets rest) by (split; reflexivity).
  split; [exact H0|]. split; [vm_compute; reflexivity|].
  exact (proj1 (generate_output_filename_www rest "markdown" H0)).
Defined.



(** ** Cookie parser: further properties *)

Section CookieMore.

Context {json : Type} (fs : string -> option (outcome json)).

Lemma parse_cookies_cases s :
  (∃ str, s = Some str ∧ str ≠ "" ∧ fs str = None ∧
          parse_cookies json fs s = ([], Returned (inline_cookies str)))
  ∨ (∃ str j, s = Some str ∧ fs str = Some (Returned j) ∧
              parse_cookies json fs s = ([], Returned (Some (Loaded j))))
  ∨ (∃ printed, parse_cookies json fs s = (printed, Returned None)).
Proof.
  destruct s as [str|]; [|right; right; by eexists].
  destruct (PyStr.truthy str) eqn:Ht.
  - destruct (fs str) as [[j|e]|] eqn:Hf.
    + right. left. exists str, j. repeat split; try done.
      unfold parse_cookies. by rewrite Ht, Hf.
    + right. right. eexists. unfold parse_cookies. by rewrite Ht, Hf.
    + left. exists str. apply truthy_true in Ht.
      split; [done|]. split; [done|]. split; [done|].
      by apply parse_cookies_not_file.
  - right. right. eexists. unfold parse_cookies. by rewrite Ht.
Qed.

Lemma segment_cookie_shape segment c :
  PyStr.contains_char ";" segment = false →
  segment_cookie segment = Some c →
  domain c = "" ∧ path c = "/" ∧
  PyStr.contains_char "=" (name c) = false ∧
  PyStr.contains_char ";" (name c) = false ∧
  PyStr.contains_char ";" (value c) = false ∧
  PyStr.strip (name c) = name c ∧ PyStr.strip (value c) = value c.
Proof.
  intros Hsemi. unfold segment_cookie.
  destruct (cut "=" segment) as [[n v]|] eqn:E; [|done].
  intros [= <-]. simpl. apply cut_Some in E as [-> Hn].
  rewrite contains_char_app in Hsemi. apply orb_false_iff in Hsemi as [Hn' Hv'].
  simpl in Hv'.
  split; [done|]. split; [done|]. unfold PyStr.strip at 1 2 3.
  split; [by apply rstrip_keeps_absent, lstrip_keeps_absent|].
  split; [by apply rstrip_keeps_absent, lstrip_keeps_absent|].
  split; [by apply rstrip_keeps_absent, lstrip_keeps_absent|].
  split; apply strip_idem.
Qed.

End CookieMore.

(** X14: a call of [parse_cookies] raises only when the existence test on
    the path raises, which needs a non-empty argument; the exception is then
    the one of the test and nothing is printed.  In every other case the
    call returns, and whenever it prints a warning it returns absence. *)
Theorem parse_cookies_call_raises {json}
    (probe : string -> outcome (option (outcome json))) s :
  (∀ e, (parse_cookies_call probe s).2 = Raised e ↔
        ∃ str, s = Some str ∧ str ≠ "" ∧ probe str = Raised e) ∧
  (∀ e, (parse_cookies_call probe s).2 = Raised e →
        (parse_cookies_call probe s).1 = []) ∧
  (∀ v, (parse_cookies_call probe s).2 = Returned v →
        (parse_cookies_call probe s).1 = [] ∨ v = None).
Proof.
  assert (Hin : ∀ fs : string -> option (outcome json),
            ∃ v, (parse_cookies json fs s).2 = Returned v ∧
                 ((parse_cookies json fs s).1 = [] ∨ v = None)).
  { intros fs. destruct (parse_cookies_cases fs s)
      as [(str & _ & _ & _ & ->)|[(str & j & _ & _ & ->)|(printed & ->)]];
      eexists; simpl; split; try reflexivity; auto. }
  unfold parse_cookies_call.
  destruct s as [str|].
  - destruct (PyStr.truthy str) eqn:Ht.
    + destruct (probe str) as [answer|e0] eqn:Hp.
      * destruct (Hin (fun _ => answer)) as (v & Hv & Hw).
        split; [|split].
        -- intros e. rewrite Hv. split; [done|].
           intros (str' & [= <-] & _ & H). congruence.
        -- intros e. by rewrite Hv.
        -- intros v'. rewrite Hv. intros [= <-]. exact Hw.
      * simpl. split; [|split].
        -- intros e. split.
           ++ intros [= <-]. exists str. apply truthy_true in Ht. by repeat split.
           ++ intros (str' & [= <-] & _ & H). congruence.
        -- done.
        -- done.
    + destruct (Hin (fun _ => None)) as (v & Hv & Hw).
      split; [|split].
      * intros e. rewrite Hv. split; [done|].
        intros (str' & [= <-] & Hne & _). apply truthy_false in Ht. done.
      * intros e. by rewrite Hv.
      * intros v'. rewrite Hv. intros [= <-]. exact Hw.
  - simpl. split; [|split]; [|done|auto].
    intros e. split; [done|]. by intros (str' & H & _).
Qed.

Lemma parse_cookies_call_raises_witness :
  let long := "token=abc" in
  let probe := fun p : string =>
    if String.eqb p long then @Raised (option (outcome unit)) (OSError 36)
    else Returned None in
  (parse_cookies_call probe (Some long)).2 = Raised (OSError 36) ∧
  (∃ str, Some long = Some str ∧ str ≠ "" ∧ probe str = Raised (OSError 36)) ∧
  parse_cookies_call probe (Some "a=1")
  = ([], Returned (Some (Parsed [ Cookie "a" "1" "" "/" ]))).
Proof.
  intros long probe.
  assert (H1 : (parse_cookies_call probe (Some long)).2 = Raised (OSError 36))
    by reflexivity.
  split; [exact H1|]. split; [|reflexivity].
  exact (proj1 (proj1 (parse_cookies_call_raises probe (Some long)) (OSError 36)) H1).
Defined.

(** X15: the records parsed from an inline cookie string are well formed:
    there is at least one, each has the empty domain and the path [/], its
    name contains no [=], neither name nor value contains [;], and both are
    trimmed. *)
Theorem parse_cookies_records {json} (fs : string -> option (outcome json))
    s printed cookies :
  parse_cookies json fs s = (printed, Returned (Some (Parsed cookies))) →
  cookies ≠ [] ∧
  Forall (fun c =>
            domain c = "" ∧ path c = "/" ∧
            PyStr.contains_char "=" (name c) = false ∧
            PyStr.contains_char ";" (name c) = false ∧
            PyStr.contains_char ";" (value c) = false ∧
            PyStr.strip (name c) = name c ∧ PyStr.strip (value c) = value c)
         cookies.
Proof.
  intros H.
  destruct (parse_cookies_cases fs s)
    as [(str & _ & _ & _ & E)|[(str & j & _ & _ & E)|(pr & E)]];
    rewrite E in H; [|discriminate H..].
  injection H as _ H. unfold inline_cookies in H.
  destruct (omap segment_cookie (PyStr.split ";" str)) as [|c cs] eqn:Eo;
    [discriminate H|].
  injection H as <-. split; [done|].
  rewrite <- Eo. apply Forall_forall. intros c' Hc'.
  apply list_elem_of_omap in Hc' as (seg & Hseg & Hsc).
  eapply segment_cookie_shape; [|exact Hsc].
  pose proof (split_pieces ";" str) as Hall. rewrite Forall_forall in Hall.
  by apply Hall.
Qed.

Lemma parse_cookies_records_witness :
  let fs := fun _ : string => @None (outcome unit) in
  let cs := [ {| name := "sid"; value := "a b"; domain := ""; path := "/" |} ] in
  parse_cookies unit fs (Some " sid = a b ;junk")
  = ([], Returned (Some (Parsed cs))) ∧
  (cs ≠ [] ∧
   Forall (fun c =>
            domain c = "" ∧ path c = "/" ∧
            PyStr.contains_char "=" (name c) = false ∧
            PyStr.contains_char ";" (name c) = false ∧
            PyStr.contains_char ";" (value c) = false ∧
            PyStr.strip (name c) = name c ∧ PyStr.strip (value c) = value c)
         cs).
Proof.
  intros fs cs.
  assert (H1 : parse_cookies unit fs (Some " sid = a b ;junk")
               = ([], Returned (Some (Parsed cs)))) by reflexivity.
  split; [exact H1|].
  exact (parse_cookies_records fs (Some " sid = a b ;junk") [] cs H1).
Defined.

(** ** Browser headers *)

(** X16: the [headers] argument the orchestrator builds is what
    [parse_auth_header] returns for the option, with the same warning: the
    two truthiness tests in between lose nothing. *)
Theorem browser_headers_parse auth_header :
  browser_headers auth_header = parse_auth_header auth_header.
Proof.
  unfold browser_headers, given.
  destruct auth_header as [s|]; [|reflexivity].
  destruct (PyStr.truthy s) eqn:Ht; [|unfold parse_auth_header; by rewrite Ht].
  unfold parse_auth_header. rewrite Ht. simpl.
  destruct (PyStr.contains_char ":" s) eqn:Hc; [|reflexivity].
  rewrite split1_cut. destruct (cut ":" s) as [[k v]|] eqn:E.
  - simpl.
    assert (Hne : nonempty_dict {[PyStr.strip k := PyStr.strip v]} = true).
    { unfold nonempty_dict. apply bool_decide_eq_true.
      apply map_non_empty_singleton. }
    rewrite Hne, !map_union_empty, Hne. reflexivity.
  - apply cut_None in E. congruence.
Qed.

(** ** Output formatter: further properties *)

Lemma comprehension_Returned {A B} (f : A -> outcome B) (g : A -> B) l :
  Forall (fun a => f a = Returned (g a)) l →
  comprehension f l = Returned (map g l).
Proof.
  induction 1 as [|a l Ha _ IH]; simpl; [done|].
  by rewrite Ha, bind_Returned, IH.
Qed.

Lemma entry_get metadata key : get_or_unknown metadata key = entry metadata key.
Proof. unfold get_or_unknown, entry. by destruct (metadata !! key). Qed.

Lemma format_result_text r m :
  _crawl_metadata r = Some m → format_result true r = Returned (result_text r).
Proof.
  intros Hm. unfold format_result, result_text. rewrite Hm, !entry_get.
  unfold mret, outcome_ret. f_equal. unfold metadata_block.
  rewrite !join_two. cbn [PyStr.join]. rewrite !append_assoc. reflexivity.
Qed.

(** X17: with metadata disabled [format_results] never raises and never
    reads the metadata: the document is the markdown bodies joined by line
    feeds. *)
Theorem format_results_plain results :
  format_results results false
  = Returned (PyStr.join NL (map markdown results)).
Proof.
  unfold format_results.
  rewrite (comprehension_Returned _ markdown); [done|].
  apply Forall_forall. by intros r _.
Qed.

(** X18: with metadata enabled and a metadata record on every result, the
    call returns the join of the result texts, each the metadata block
    followed by the body; an entry the record lacks is printed as
    [Unknown]. *)
Theorem format_results_with_metadata results :
  Forall (fun r => is_Some (_crawl_metadata r)) results →
  format_results results true
  = Returned (PyStr.join NL (map result_text results)).
Proof.
  intros Hall. unfold format_results.
  rewrite (comprehension_Returned _ result_text); [done|].
  eapply Forall_impl; [exact Hall|]. intros r [m Hm].
  by apply (format_result_text r m).
Qed.

Lemma format_results_with_metadata_witness :
  let r := {| success := true; markdown := "body";
              _crawl_metadata := Some {[ "url" := PStr "u" ]} |} in
  Forall (fun r => is_Some (_crawl_metadata r)) [r] ∧
  format_results [r] true
  = Returned (metadata_block "u" "Unknown" "Unknown" "Unknown" +:+ "body").
Proof.
  intros r.
  assert (H1 : Forall (fun r => is_Some (_crawl_metadata r)) [r]).
  { apply Forall_cons. split; [by eexists|apply Forall_nil; done]. }
  split; [exact H1|].
  exact (format_results_with_metadata [r] H1).
Defined.

(** X19: with metadata enabled, one result without a metadata record makes
    the whole call raise [AttributeError]. *)
Theorem format_results_missing_metadata results :
  Exists (fun r => _crawl_metadata r = None) results →
  format_results results true = Raised (AttributeError "_crawl_metadata").
Proof.
  intros Hex. unfold format_results.
  assert (H : comprehension (format_result true) results
              = Raised (AttributeError "_crawl_metadata")).
  { induction Hex as [r rest Hr|r rest _ IH]; cbn [comprehension].
    - unfold format_result. by rewrite Hr.
    - destruct (_crawl_metadata r) as [m|] eqn:Hm.
      + rewrite (format_result_text r m Hm), bind_Returned, IH. reflexivity.
      + unfold format_result. by rewrite Hm. }
  by rewrite H.
Qed.

Lemma format_results_missing_metadata_witness :
  let r1 := {| success := true; markdown := "a";
               _crawl_metadata := Some ∅ |} in
  let r2 := {| success := true; markdown := "b"; _crawl_metadata := None |} in
  Exists (fun r => _crawl_metadata r = None) [r1; r2] ∧
  format_results [r1; r2] true = Raised (AttributeError "_crawl_metadata").
Proof.
  intros r1 r2.
  assert (H1 : Exists (fun r => _crawl_metadata r = None) [r1; r2]).
  { apply Exists_cons_tl, Exists_cons_hd. reflexivity. }
  split; [exact H1|].
  exact (format_results_missing_metadata [r1; r2] H1).
Defined.

(** ** The orchestrator *)

Section CrawlLoop.

Variables (url : string) (sections exclude_sections : option string).

Abbreviation step := (crawl_step url sections exclude_sections).
Abbreviation collect1 :=
  (fun p => collect url sections exclude_sections (crawled_at p) (result p)).
Abbreviation report1 :=
  (fun p => CrawlFailed (default "Unknown error" (error_message p))).

Lemma crawl_fold pages st :
  fold_left step pages st
  = {| collected_results :=
         collected_results st ++ map collect1 (succeeded pages);
       console := console st ++ map report1 (failed pages) |}.
Proof.
  revert st. induction pages as [|p rest IH]; intros st; cbn [fold_left].
  - unfold succeeded, failed. simpl. rewrite !app_nil_r. by destruct st.
  - rewrite IH. unfold crawl_step, succeeded, failed.
    rewrite !filter_cons.
    destruct (success (result p)) eqn:Hs; simpl.
    + destruct (decide (Is_true true)) as [_|[]]; [|done].
      destruct (decide (¬ Is_true true)) as [[]|_]; [done|].
      cbn [map]. by rewrite <- app_assoc.
    + destruct (decide (Is_true false)) as [[]|_].
      destruct (decide (¬ Is_true false)) as [_|[]]; [|by intros []].
      cbn [map]. by rewrite <- app_assoc.
Qed.

Lemma collect_text md p :
  format_result md (collect1 p)
  = Returned (page_text url sections exclude_sections md p).
Proof.
  unfold page_text. destruct md; [|reflexivity].
  pose proof (collect_has_metadata url sections exclude_sections
                (crawled_at p) (result p)) as Hm.
  rewrite (format_result_metadata _ _ _ _ _ Hm). reflexivity.
Qed.

End CrawlLoop.


(** X21: when [--quiet] is off and the crawler returned no page, [main]
    exits with status 1 before anything is formatted.  Otherwise, when
    [--output] is given or the URL has no square bracket, and once the
    output path is determined, the token count returns and the write
    succeeds, the file holds the texts of the successful pages joined by line
    feeds, in their order, with or without metadata.  An exception leaves
    this part of [main] only from the computation of the output path or from
    the token count: formatting what the loop collected never raises. *)
Theorem main_after_crawl_document quiet output url sections exclude_sections
    md count_tokens write pages :
  let document :=
    PyStr.join NL
      (map (page_text url sections exclude_sections md) (succeeded pages)) in
  (quiet = false → pages = [] →
   main_after_crawl quiet output url sections exclude_sections md
     count_tokens write pages = Exit1) ∧
  (∀ path n,
     quiet = true ∨ pages ≠ [] →
     given output = true ∨ no_brackets url →
     output_file output url = Returned path →
     count_tokens document = Returned n →
     write path document = Returned tt →
     main_after_crawl quiet output url sections exclude_sections md
       count_tokens write pages = Saved path document) ∧
  (∀ e,
     main_after_crawl quiet output url sections exclude_sections md
       count_tokens write pages = Escaped e →
     output_file output url = Raised e ∨ count_tokens document = Raised e).
Proof.
  intros document.
  assert (Hdoc : format_results
            (collected_results (crawl_loop url sections exclude_sections pages)) md
          = Returned document).
  { unfold crawl_loop, format_results. rewrite crawl_fold. simpl.
    rewrite (comprehension_Returned _
               (fun r => match format_result md r with
                         | Returned t => t
                         | Raised _ => ""
                         end)).
    - rewrite bind_Returned. unfold mret, outcome_ret, document. do 2 f_equal.
      rewrite map_map. apply map_ext. intros p. by rewrite collect_text.
    - apply Forall_forall. intros r Hr.
      apply list_elem_of_In, in_map_iff in Hr as (p & <- & _).
      by rewrite collect_text. }
  unfold main_after_crawl. rewrite Hdoc. split; [|split].
  - intros -> ->. reflexivity.
  - intros path n Hq _ Hp Hn Hw.
    assert (Hc : negb quiet && negb (nonempty pages) = false).
    { destruct Hq as [->|Hne]; [done|].
      destruct pages; [done|]. by rewrite andb_false_r. }
    by rewrite Hc, Hp, Hn, Hw.
  - intros e.
    destruct (negb quiet && negb (nonempty pages)); [done|].
    destruct (output_file output url) as [path|e1]; [|intros [= ->]; by left].
    destruct (count_tokens document) as [n|e2]; [|intros [= ->]; by right].
    by destruct (write path document).
Qed.

Lemma main_after_crawl_document_witness :
  let ok := {| result := {| success := true; markdown := "# A";
                            _crawl_metadata := None |};
               error_message := None; crawled_at := "t1" |} in
  let bad := {| result := {| success := false; markdown := "";
                             _crawl_metadata := None |};
                error_message := Some "timeout"; crawled_at := "t2" |} in
  let count := fun _ : string => Returned 3%Z in
  let write := fun _ _ : string => Returned tt in
  let document := metadata_block "https://x.dev" "t1" "1" "single-page" +:+ "# A" in
  (false = true ∨ [bad; ok] ≠ []) ∧
  (given None = true ∨ no_brackets "https://x.dev") ∧
  output_file None "https://x.dev" = Returned "docs-x-dev.md" ∧
  main_after_crawl false None "https://x.dev" None None true count write [bad; ok]
  = Saved "docs-x-dev.md" document ∧
  main_after_crawl false None "https://x.dev" None None true count write []
  = Exit1.
Proof.
  intros ok bad count write document.
  assert (H1 : false = true ∨ [bad; ok] ≠ []) by (by right).
  assert (H2 : output_file None "https://x.dev" = Returned "docs-x-dev.md")
    by (vm_compute; reflexivity).
  assert (H3 : given None = true ∨ no_brackets "https://x.dev")
    by (right; split; reflexivity).
  pose proof (main_after_crawl_document false None "https://x.dev" None None
                true count write [bad; ok]) as [_ [Hs _]].
  pose proof (main_after_crawl_document false None "https://x.dev" None None
                true count write []) as [He _].
  split; [exact H1|]. split; [exact H3|]. split; [exact H2|]. split.
  - exact (Hs "docs-x-dev.md" 3%Z H1 H3 H2 eq_refl eq_refl).
  - exact (He eq_refl eq_refl).
Defined.
